(** * ModelCheckerForMaya: a shallow embedding of checker.py and
    modelSanityChecker.py, and the properties of the checker framework.

    The Python program drives Autodesk Maya through [maya.cmds] and
    [maya.api.OpenMaya].  Those calls are the external collaborator: they are
    modelled as an indexed family of commands [cmd] answered by a host
    function over an abstract scene.  Python exceptions are the [Raise] branch
    of [result]; mutable objects ([self.errors], the widgets) are explicit
    state threaded by a small state-and-exception monad. *)

From Stdlib Require Import List String Ascii Bool Arith Lia ZArith Permutation.
From Stdlib Require Import Floats DecimalString Sorted.
From Stdlib Require OrderedTypeEx.
Import ListNotations.
Open Scope string_scope.
Open Scope list_scope.

(** ** Python values used by the program *)

Module Py.

(** The built-in exception classes that occur in the two source files. *)
Inductive exn :=
| RuntimeError | ValueError | TypeError | AttributeError | IndexError.

Definition exn_eqb (a b : exn) : bool :=
  match a, b with
  | RuntimeError, RuntimeError | ValueError, ValueError
  | TypeError, TypeError | AttributeError, AttributeError
  | IndexError, IndexError => true
  | _, _ => false
  end.

(** Outcome of a Python call: a value or a raised exception. *)
Inductive result (A : Type) :=
| Ok (a : A)
| Raise (e : exn).
Arguments Ok {A} a.
Arguments Raise {A} e.

(** [s.split(sep)] for a one-character separator: always at least one
    field, empty fields kept. *)
Fixpoint split (sep : ascii) (s : string) : list string :=
  match s with
  | EmptyString => [EmptyString]
  | String c rest =>
      if Ascii.eqb c sep then EmptyString :: split sep rest
      else match split sep rest with
           | [] => [String c EmptyString]
           | h :: t => String c h :: t
           end
  end.

(** [a, b = l]: unpacking into exactly two targets. *)
Definition unpack2 (l : list string) : result (string * string) :=
  match l with
  | [a; b] => Ok (a, b)
  | _ => Raise ValueError
  end.

(** Truthiness of a value that is [None] or a list. *)
Definition truthy {A} (o : option (list A)) : bool :=
  match o with
  | Some (_ :: _) => true
  | _ => false
  end.

(** [x or []]. *)
Definition or_empty {A} (o : option (list A)) : list A :=
  if truthy o then match o with Some l => l | None => [] end else [].

(** [l.remove(x)]: drops the first occurrence, [ValueError] when absent. *)
Fixpoint remove_first (x : string) (l : list string) : result (list string) :=
  match l with
  | [] => Raise ValueError
  | y :: l' =>
      if String.eqb y x then Ok l'
      else match remove_first x l' with
           | Ok r => Ok (y :: r)
           | Raise e => Raise e
           end
  end.

(** [str(n)] for a non-negative index. *)
Definition str_of_nat (n : nat) : string :=
  NilEmpty.string_of_uint (Nat.to_uint n).

Definition is_digit (c : ascii) : bool :=
  let n := nat_of_ascii c in Nat.leb 48 n && Nat.leb n 57.

(** [re.match("modelPanel[0-9]ViewSelectedSet", s) is not None]:
    the pattern is anchored at the start only. *)
Definition match_modelPanelSet (s : string) : bool :=
  String.prefix "modelPanel" s &&
  match String.get 10 s with
  | Some c => is_digit c
  | None => false
  end &&
  String.prefix "ViewSelectedSet" (String.substring 11 (String.length s - 11) s).

End Py.
Export Py.

(** ** State-and-exception monad

    A computation reads and writes a state [St]; an exception leaves the
    state as it was when it was raised (Python does not roll back). *)

Definition M (St A : Type) : Type := St -> result A * St.

Definition ret {St A} (a : A) : M St A := fun s => (Ok a, s).

Definition bind {St A B} (m : M St A) (k : A -> M St B) : M St B :=
  fun s =>
    match m s with
    | (Ok a, s') => k a s'
    | (Raise e, s') => (Raise e, s')
    end.

Definition raise {St A} (e : exn) : M St A := fun s => (Raise e, s).

Definition lift_result {St A} (r : result A) : M St A := fun s => (r, s).

Definition modify {St} (f : St -> St) : M St unit := fun s => (Ok tt, f s).

(** [try: body / except E: pass] for the exception classes accepted by
    [handles]. *)
Definition try_pass {St} (handles : exn -> bool) (body : M St unit) : M St unit :=
  fun s =>
    match body s with
    | (Ok a, s') => (Ok a, s')
    | (Raise e, s') => if handles e then (Ok tt, s') else (Raise e, s')
    end.

(** Run a computation on a part of the state. *)
Definition zoom {St St' A} (get : St' -> St) (set : St -> St' -> St')
    (m : M St A) : M St' A :=
  fun s' => let (r, s) := m (get s') in (r, set s s').

Declare Scope monad_scope.
Delimit Scope monad_scope with monad.
Notation "x <- m ;; k" := (bind m (fun x => k))
  (at level 61, m at next level, right associativity) : monad_scope.
Notation "m ;;; k" := (bind m (fun _ => k))
  (at level 61, right associativity) : monad_scope.
Open Scope monad_scope.

(** [for x in xs: body]. *)
Fixpoint for_each {St X} (xs : list X) (body : X -> M St unit) : M St unit :=
  match xs with
  | [] => ret tt
  | x :: xs' => body x ;;; for_each xs' body
  end.

(** [for x in xs: body], where the body answers [true] when it executes
    [break]. *)
Fixpoint for_break {St X} (xs : list X) (body : X -> M St bool) : M St unit :=
  match xs with
  | [] => ret tt
  | x :: xs' => b <- body x ;; if b then ret tt else for_break xs' body
  end.

(** [for x in o: body] where [o] may be [None]: iterating [None] raises
    [TypeError]. *)
Definition for_each_opt {St X} (o : option (list X)) (body : X -> M St unit)
    : M St unit :=
  match o with
  | None => raise TypeError
  | Some xs => for_each xs body
  end.

Definition when {St} (b : bool) (m : M St unit) : M St unit :=
  if b then m else ret tt.

Definition gets {St A} (f : St -> A) : M St A := fun s => (Ok (f s), s).

(** A loop that collects the items for which a monadic test answers
    [True] into a fresh local list ([keys = []; for c in conns: if t(c):
    keys.append(c)]). *)
Fixpoint filter_m {St X} (p : X -> M St bool) (xs : list X) : M St (list X) :=
  match xs with
  | [] => ret []
  | x :: xs' =>
      b <- p x ;;
      r <- filter_m p xs' ;;
      ret (if b then x :: r else r)
  end.

(** A loop that extends one local list with the list computed for each
    item ([acc = []; for x in xs: acc.extend(f(x))]). *)
Fixpoint concat_m {St X Y} (f : X -> M St (list Y)) (xs : list X)
    : M St (list Y) :=
  match xs with
  | [] => ret []
  | x :: xs' =>
      l <- f x ;;
      r <- concat_m f xs' ;;
      ret (l ++ r)
  end.

(** ** The host application: [maya.cmds] and [maya.api.OpenMaya] *)

(** The flags of [cmds.listRelatives] that the program passes. *)
Record lrFlags := {
  children : bool;
  ad : bool;
  fullPath : bool;
  shapes : bool;
  parent : bool;
  type : option string
}.

Definition lr_ad (ty : string) : lrFlags :=
  {| children := false; ad := true; fullPath := true; shapes := false;
     parent := false; type := Some ty |}.
Definition lr_shapes : lrFlags :=
  {| children := true; ad := false; fullPath := true; shapes := true;
     parent := false; type := None |}.
Definition lr_children (ty : string) : lrFlags :=
  {| children := true; ad := false; fullPath := false; shapes := false;
     parent := false; type := Some ty |}.
Definition lr_children_ad (ty : string) : lrFlags :=
  {| children := true; ad := true; fullPath := true; shapes := false;
     parent := false; type := Some ty |}.
Definition lr_parent (full : bool) : lrFlags :=
  {| children := false; ad := false; fullPath := full; shapes := false;
     parent := true; type := None |}.

(** One constructor per call shape in the sources; the index is the type
    of the Python value the call answers.  A command that takes one node
    name or a list of names takes a list here; an [MDagPath] is represented
    by the full path name it stands for. *)
Inductive cmd : Type -> Type :=
| checkMesh (objs : list string) (c : nat) (maxFaceArea : option float)
    : cmd (list string)
| checkUV (objs : list string) (c : nat) : cmd (list string)
| listRelatives (objs : list string) (flags : lrFlags)
    : cmd (option (list string))
| polyInfo_nmv (obj : string) : cmd (option (list string))
| getAttr (plug : string) : cmd Z
| getAttr_lock (plug : string) : cmd bool
| listConnections (plug : string) (source : bool)
    : cmd (option (list string))
| objectType (node : string) : cmd string
| ls_type (ty : string) : cmd (list string)
| ls_selection : cmd (list string)
| editDisplayLayerMembers (layer : string) : cmd (option (list string))
| polyUVSet_current (mesh : string) : cmd (option (list string))
| polyUVSet_setCurrent (mesh uvSet : string) : cmd unit
| polyColorSet_all (obj : string) : cmd (option (list string))
| polyColorSet_delete (obj colorSet : string) : cmd unit
| objExists (node : string) : cmd bool
| polyMoveVertex (obj : string) : cmd unit
| rename (node newName : string) : cmd string
| delete (objs : option (list string)) (ch : bool) : cmd unit
| setAttr (plug : string) (value : Z) : cmd unit
| setAttr_lock (plug : string) (lock : bool) : cmd unit
| disconnectAttr (src dst : string) : cmd unit
| warning (msg : string) : cmd unit
| MSelectionList_add (node : string) : cmd unit
| MFnDagNode_transformationMatrix (dagPath : string) : cmd (list float)
| MDagPath_extendToShape (dagPath : string) : cmd string
| MFnMesh_getUVs (dagPath : string) : cmd (list float * list float).

(** A host answers every command on a scene and may change the scene. *)
Definition Host (Scene : Type) : Type :=
  forall T, cmd T -> Scene -> result T * Scene.

(** ** checker.py: [Error] and [BaseChecker] *)

(** [Error(fullPath, errors=None)]. *)
Record Error := {
  components : option (list string);
  longName : string;
  shortName : string
}.

Definition Error_init (path : string) (errors : option (list string)) : Error :=
  {| components := errors;
     longName := path;
     shortName := last (split "|" path) EmptyString |}.

(** The concrete checker classes, in the order of the [CHECKERS] list. *)
Inductive CheckerClass :=
| NameChecker | ShapeNameChecker | HistoryChecker | TransformChecker
| LockedTransformChecker | SmoothPreviewChecker | KeyframeChecker
| TriangleChecker | NgonChecker | NonmanifoldEdgeChecker
| NonmanifoldVertexChecker | LaminaFaceChecker | BiValentFaceChecker
| ZeroAreaFaceChecker | MeshBorderEdgeChecker | CreaseEdgeChecker
| ZeroLengthEdgeChecker | VertexPntsChecker | EmptyGeometryChecker
| UnusedVertexChecker | IntermediateObjectChecker | InstanceShapeChecker
| ConnectionChecker | DisplayLayerCheck | UnusedLayerChecker | Map1Checker
| NegativeUvChecker | UdimIntersectionChecker | UnassignedUvChecker
| UnmappedPolygonFaceChecker | ZeroAreaUVFaceChecker | ConcaveUVChecker
| ReversedUVChecker | UvOverlapChecker | SelectionSetChecker
| ColorSetChecker.

Definition CHECKERS : list CheckerClass :=
  [ NameChecker; ShapeNameChecker; HistoryChecker; TransformChecker;
    LockedTransformChecker; SmoothPreviewChecker; KeyframeChecker;
    TriangleChecker; NgonChecker; NonmanifoldEdgeChecker;
    NonmanifoldVertexChecker; LaminaFaceChecker; BiValentFaceChecker;
    ZeroAreaFaceChecker; MeshBorderEdgeChecker; CreaseEdgeChecker;
    ZeroLengthEdgeChecker; VertexPntsChecker; EmptyGeometryChecker;
    UnusedVertexChecker; IntermediateObjectChecker; InstanceShapeChecker;
    ConnectionChecker; DisplayLayerCheck; UnusedLayerChecker; Map1Checker;
    NegativeUvChecker; UdimIntersectionChecker; UnassignedUvChecker;
    UnmappedPolygonFaceChecker; ZeroAreaUVFaceChecker; ConcaveUVChecker;
    ReversedUVChecker; UvOverlapChecker; SelectionSetChecker;
    ColorSetChecker ].

(** Class attribute [__name__]. *)
Definition class_name (k : CheckerClass) : string :=
  match k with
  | NameChecker => "Name"
  | ShapeNameChecker => "ShapeName"
  | HistoryChecker => "History"
  | TransformChecker => "Transform"
  | LockedTransformChecker => "Locked Transform"
  | SmoothPreviewChecker => "Smooth Preview"
  | KeyframeChecker => "Keyframe"
  | TriangleChecker => "Triangles"
  | NgonChecker => "N-gons"
  | NonmanifoldEdgeChecker => "Nonmanifold Edges"
  | NonmanifoldVertexChecker => "Nonmanifold Vertices"
  | LaminaFaceChecker => "Lamina Faces"
  | BiValentFaceChecker => "Bi-valent Faces"
  | ZeroAreaFaceChecker => "Zero Area Faces"
  | MeshBorderEdgeChecker => "Mesh Border Edges"
  | CreaseEdgeChecker => "Crease Edges"
  | ZeroLengthEdgeChecker => "Zero-length Edges"
  | VertexPntsChecker => "Vertex Pnts Attribute"
  | EmptyGeometryChecker => "Empty Geometry"
  | UnusedVertexChecker => "Unused Vertices"
  | IntermediateObjectChecker => "Intermediate Object"
  | InstanceShapeChecker => "Instance Shape"
  | ConnectionChecker => "Connections"
  | DisplayLayerCheck => "Display layers"
  | UnusedLayerChecker => "Unused layers"
  | Map1Checker => "UVSet to map1"
  | NegativeUvChecker => "UVs in negative space"
  | UdimIntersectionChecker => "UDIM intersection"
  | UnassignedUvChecker => "Unassigned UVs"
  | UnmappedPolygonFaceChecker => "Unmapped polygon faces"
  | ZeroAreaUVFaceChecker => "Zero area UV Faces"
  | ConcaveUVChecker => "Concave UV Faces"
  | ReversedUVChecker => "Reversed UV Faces"
  | UvOverlapChecker => "UV Overlaps"
  | SelectionSetChecker => "Selection Sets"
  | ColorSetChecker => "Color Sets"
  end.

(** Class attribute [__category__]. *)
Definition class_category (k : CheckerClass) : string :=
  match k with
  | NameChecker | ShapeNameChecker => "Name"
  | HistoryChecker | IntermediateObjectChecker | InstanceShapeChecker
  | ConnectionChecker => "Node"
  | TransformChecker | LockedTransformChecker | SmoothPreviewChecker
  | KeyframeChecker | VertexPntsChecker => "Attribute"
  | TriangleChecker | NgonChecker | NonmanifoldEdgeChecker
  | NonmanifoldVertexChecker | LaminaFaceChecker | BiValentFaceChecker
  | ZeroAreaFaceChecker | MeshBorderEdgeChecker | CreaseEdgeChecker
  | ZeroLengthEdgeChecker | EmptyGeometryChecker | UnusedVertexChecker
      => "Topology"
  | DisplayLayerCheck | UnusedLayerChecker | SelectionSetChecker
  | ColorSetChecker => "other"
  | Map1Checker | NegativeUvChecker | UdimIntersectionChecker
  | UnassignedUvChecker | UnmappedPolygonFaceChecker | ZeroAreaUVFaceChecker
  | ConcaveUVChecker | ReversedUVChecker | UvOverlapChecker => "UV"
  end.

(** Class attribute [isWarning] (default [False]). *)
Definition class_isWarning (k : CheckerClass) : bool :=
  match k with
  | TriangleChecker | MeshBorderEdgeChecker | ReversedUVChecker => true
  | _ => false
  end.

(** Class attribute [isEnabled] (default [True]). *)
Definition class_isEnabled (k : CheckerClass) : bool :=
  match k with
  | NameChecker | UvOverlapChecker => false
  | _ => true
  end.

(** Class attribute [isFixable] (default [False]). *)
Definition class_isFixable (k : CheckerClass) : bool :=
  match k with
  | VertexPntsChecker | ShapeNameChecker | HistoryChecker
  | LockedTransformChecker | SmoothPreviewChecker | KeyframeChecker
  | IntermediateObjectChecker | DisplayLayerCheck | UnusedLayerChecker
  | Map1Checker | SelectionSetChecker | ColorSetChecker => true
  | _ => false
  end.

(** A checker instance: its class, the instance attribute [isEnabled]
    (written by [CheckerWidget.setEnabled]) and the cached findings
    [self.errors]. *)
Record BaseChecker := {
  cls : CheckerClass;
  isEnabled : bool;
  errors : list Error
}.

Definition BaseChecker_init (k : CheckerClass) : BaseChecker :=
  {| cls := k; isEnabled := class_isEnabled k; errors := [] |}.

Definition name (self : BaseChecker) : string := class_name (cls self).
Definition category (self : BaseChecker) : string := class_category (cls self).
Definition isWarning (self : BaseChecker) : bool := class_isWarning (cls self).
Definition isFixable (self : BaseChecker) : bool := class_isFixable (cls self).

(** [BaseChecker.__eq__]: [return self.name == self.name]. *)
Definition BaseChecker_eq (self other : BaseChecker) : bool :=
  String.eqb (name self) (name self).

(** [BaseChecker.__ne__]: [return not (self == other)]. *)
Definition BaseChecker_ne (self other : BaseChecker) : bool :=
  negb (BaseChecker_eq self other).

(** [BaseChecker.__lt__]: [return self.category < other.category]. *)
Definition BaseChecker_lt (self other : BaseChecker) : bool :=
  String.ltb (category self) (category other).

(** [Settings.getSettings()['maxFaceArea']]: the text of the line edit
    converted by [float()]; [maxFaceArea_text] is [None] when the text is
    not a number and [float()] raises [ValueError]. *)
Record Settings := { maxFaceArea_text : option float }.

Definition getSettings_maxFaceArea (settings : option Settings) : result float :=
  match settings with
  | None => Raise AttributeError
  | Some s =>
      match maxFaceArea_text s with
      | Some f => Ok f
      | None => Raise ValueError
      end
  end.

(** ** The aggregation step shared by the oracle-backed checkers

    [errorsDict] is a Python dict from owner to the list of raw
    identifiers; a dict iterates in insertion order, so it is an
    association list with unique keys, new keys added at the end. *)

Definition errorsDict := list (string * list string).

(** [base in errorsDict]. *)
Fixpoint dict_contains (base : string) (d : errorsDict) : bool :=
  match d with
  | [] => false
  | (k, _) :: d' => String.eqb k base || dict_contains base d'
  end.

(** [errorsDict[base].append(e)] for a key that is present. *)
Fixpoint dict_append (base e : string) (d : errorsDict) : errorsDict :=
  match d with
  | [] => []
  | (k, v) :: d' =>
      if String.eqb k base then (k, v ++ [e]) :: d'
      else (k, v) :: dict_append base e d'
  end.

(** [errorsDict[base] = [e]] for a key that is absent. *)
Definition dict_new (base e : string) (d : errorsDict) : errorsDict :=
  d ++ [(base, [e])].

(** One iteration of [for e in errs]: [base, comp = e.split(".")], then
    the dict update. *)
Definition group_step (d : errorsDict) (e : string) : result errorsDict :=
  match unpack2 (split "." e) with
  | Raise x => Raise x
  | Ok (base, comp) =>
      Ok (if dict_contains base d then dict_append base e d
          else dict_new base e d)
  end.

Fixpoint group_loop (errs : list string) (d : errorsDict) : result errorsDict :=
  match errs with
  | [] => Ok d
  | e :: errs' =>
      match group_step d e with
      | Ok d' => group_loop errs' d'
      | Raise x => Raise x
      end
  end.

(** [x[0]] on the answer of a query that is [None] or a list. *)
Definition index0 (o : option (list string)) : result string :=
  match o with
  | None => Raise TypeError
  | Some [] => Raise IndexError
  | Some (x :: _) => Ok x
  end.

(** [OpenMaya.MMatrix.kIdentity], row by row, and [MMatrix.__eq__]. *)
Definition kIdentity : list float :=
  [1; 0; 0; 0;  0; 1; 0; 0;  0; 0; 1; 0;  0; 0; 0; 1]%float.

Fixpoint matrix_eqb (a b : list float) : bool :=
  match a, b with
  | [], [] => true
  | x :: a', y :: b' => PrimFloat.eqb x y && matrix_eqb a' b'
  | _, _ => false
  end.

(** [enumerate(l)]. *)
Definition enumerate {A} (l : list A) : list (nat * A) :=
  combine (seq 0 (List.length l)) l.

(** [list(set(l))]: the distinct items of [l].  Python leaves the order
    of a set unspecified; the first occurrences are kept in order here. *)
Fixpoint distinct (l : list string) : list string :=
  match l with
  | [] => []
  | x :: l' => x :: filter (fun y => negb (String.eqb y x)) (distinct l')
  end.

Definition mem (x : string) (l : list string) : bool :=
  existsb (String.eqb x) l.

(** What the engine did, in order: the ghost record of every entry into a
    checker's [checkIt] (with the objects it was given) and [fixIt]. *)
Inductive Event :=
| CheckIt_called (checker_name : string) (objs : list string)
| FixIt_called (checker_name : string).

Section Engine.

Variable Scene : Type.
Variable host : Host Scene.

(** The world outside the Python objects: the Maya scene and the ghost
    trace. *)
Record World := { scene : Scene; trace : list Event }.

(** [cmds.<command>(...)] from a method of an object of type [Self]. *)
Definition call {Self T} (c : cmd T) : M (Self * World) T :=
  fun st =>
    let (r, sc) := host T c (scene (snd st)) in
    (r, (fst st, {| scene := sc; trace := trace (snd st) |})).

Definition log {Self} (ev : Event) : M (Self * World) unit :=
  modify (fun st =>
    (fst st, {| scene := scene (snd st); trace := trace (snd st) ++ [ev] |})).

(** *** Methods of the checker classes: the state is [self] and the world *)

Definition Chk (A : Type) : Type := M (BaseChecker * World) A.

Definition self : Chk BaseChecker := gets fst.

(** [self.errors = l]. *)
Definition set_errors (l : list Error) : Chk unit :=
  modify (fun st =>
    ({| cls := cls (fst st); isEnabled := isEnabled (fst st); errors := l |},
     snd st)).

(** [self.errors.append(e)]. *)
Definition append_error (e : Error) : Chk unit :=
  modify (fun st =>
    ({| cls := cls (fst st); isEnabled := isEnabled (fst st);
        errors := errors (fst st) ++ [e] |},
     snd st)).

(** [return self.errors]. *)
Definition return_errors : Chk (list Error) := gets (fun st => errors (fst st)).

(** The two loops after the oracle call of an aggregating checker: group
    the raw identifiers by owner, then emit one [Error] per dict key. *)
Definition aggregate (errs : list string) : Chk unit :=
  errorsDict <- lift_result (group_loop errs []) ;;
  for_each errorsDict (fun kv =>
    append_error (Error_init (fst kv) (Some (snd kv)))).

(** [checkIt] of the checkers that aggregate the oracle's answer
    (TriangleChecker and the fifteen classes with the same body). *)
Definition checkIt_aggregated (oracle : cmd (list string)) : Chk (list Error) :=
  set_errors [] ;;;
  errs <- call oracle ;;
  aggregate errs ;;;
  return_errors.

(** [ZeroAreaFaceChecker.checkIt]: the settings lookup comes first. *)
Definition checkIt_ZeroAreaFace (obj : list string) (settings : option Settings)
    : Chk (list Error) :=
  mfa <- lift_result (getSettings_maxFaceArea settings) ;;
  checkIt_aggregated (checkMesh obj 5 (Some mfa)).

(** [checkIt] of the checkers whose oracle answers whole objects
    (VertexPntsChecker, EmptyGeometryChecker, InstanceShapeChecker,
    ConnectionChecker). *)
Definition checkIt_whole (oracle : cmd (list string)) : Chk (list Error) :=
  set_errors [] ;;;
  errs <- call oracle ;;
  for_each errs (fun e => append_error (Error_init e None)) ;;;
  return_errors.

Definition is_RuntimeError (e : exn) : bool := exn_eqb e RuntimeError.
Definition is_ValueError (e : exn) : bool := exn_eqb e ValueError.
Definition is_Exception (e : exn) : bool := true.

Definition checkIt_NonmanifoldVertex (obj : list string) : Chk (list Error) :=
  set_errors [] ;;;
  children <- call (listRelatives obj (lr_ad "mesh")) ;;
  for_each_opt children (fun obj =>
    try_pass is_RuntimeError
      (errs <- call (polyInfo_nmv obj) ;;
       when (truthy errs) (append_error (Error_init obj errs)))) ;;;
  return_errors.

Definition checkIt_Name (objs : list string) : Chk (list Error) :=
  set_errors [] ;;;
  for_each objs (fun obj => try_pass is_RuntimeError (ret tt)) ;;;
  return_errors.

Definition checkIt_ShapeName (root : list string) : Chk (list Error) :=
  set_errors [] ;;;
  objs <- call (listRelatives root (lr_ad "transform")) ;;
  for_each (or_empty objs) (fun obj =>
    shapes <- call (listRelatives [obj] lr_shapes) ;;
    for_each (or_empty shapes) (fun shape =>
      isIntermediate <- call (getAttr (shape ++ ".intermediateObject")) ;;
      if negb (Z.eqb isIntermediate 0) then ret tt
      else
        let shortName := last (split "|" obj) EmptyString in
        let shapeShortName := last (split "|" shape) EmptyString in
        when (negb (String.eqb (shortName ++ "Shape") shapeShortName))
          (append_error (Error_init shape None)))) ;;;
  return_errors.

Definition checkIt_History (root : list string) : Chk (list Error) :=
  set_errors [] ;;;
  objs <- call (listRelatives root (lr_ad "transform")) ;;
  for_each (or_empty objs) (fun obj =>
    mesh <- call (listRelatives [obj] (lr_children "mesh")) ;;
    match mesh with
    | None => ret tt
    | Some ms =>
        for_each ms (fun m =>
          inMesh <- call (listConnections (m ++ ".inMesh") true) ;;
          match inMesh with
          | None => ret tt
          | Some _ => append_error (Error_init obj None)
          end)
    end) ;;;
  return_errors.

(** [TransformChecker.checkIt].  [mSel] receives [objs[0..n]] in order, so
    [mSel.getDagPath(n)] is the path just added; [ignore] is the empty
    list of the source. *)
Definition checkIt_Transform (root : list string) : Chk (list Error) :=
  let ignore : list string := [] in
  set_errors [] ;;;
  objs <- call (listRelatives root (lr_ad "transform")) ;;
  for_each (enumerate (or_empty objs)) (fun ni =>
    let i := snd ni in
    call (MSelectionList_add i) ;;;
    let dagPath := i in
    let groupName := last (split "|" dagPath) EmptyString in
    if mem groupName ignore then ret tt
    else
      transform <- call (MFnDagNode_transformationMatrix dagPath) ;;
      when (negb (matrix_eqb transform kIdentity))
        (append_error (Error_init i None))) ;;;
  return_errors.

(** [self.attrs] of LockedTransformChecker. *)
Definition attrs : list string :=
  ["tx"; "ty"; "tz"; "rx"; "ry"; "rz"; "sx"; "sy"; "sz"].

Definition checkIt_LockedTransform (root : list string) : Chk (list Error) :=
  set_errors [] ;;;
  objs <- call (listRelatives root (lr_ad "transform")) ;;
  for_each (or_empty objs) (fun obj =>
    try_pass is_RuntimeError
      (for_break attrs (fun at_ =>
         isLocked <- call (getAttr_lock (obj ++ "." ++ at_)) ;;
         if isLocked : bool
         then append_error (Error_init obj None) ;;; ret true
         else ret false))) ;;;
  return_errors.

Definition checkIt_SmoothPreview (root : list string) : Chk (list Error) :=
  set_errors [] ;;;
  meshes <- call (listRelatives root (lr_ad "mesh")) ;;
  for_each (or_empty meshes) (fun mesh =>
    isSmooth <- call (getAttr (mesh ++ ".displaySmoothMesh")) ;;
    when (negb (Z.eqb isSmooth 0)) (append_error (Error_init mesh None))) ;;;
  return_errors.

Definition checkIt_Keyframe (root : list string) : Chk (list Error) :=
  set_errors [] ;;;
  let keyNodes := ["animCurveTU"; "animCurveTA"; "animCurveTL"] in
  objs <- call (listRelatives root (lr_ad "transform")) ;;
  for_each (or_empty objs) (fun i =>
    conns <- call (listConnections i true) ;;
    match conns with
    | None => ret tt
    | Some cs =>
        keys <- filter_m (fun c =>
                  t <- call (objectType c) ;; ret (mem t keyNodes)) cs ;;
        when (truthy (Some keys)) (append_error (Error_init i (Some keys)))
    end) ;;;
  return_errors.

Definition checkIt_IntermediateObject (root : list string) : Chk (list Error) :=
  set_errors [] ;;;
  meshes <- call (listRelatives root (lr_ad "mesh")) ;;
  for_each_opt meshes (fun mesh =>
    isIntermediate <- call (getAttr (mesh ++ ".intermediateObject")) ;;
    when (negb (Z.eqb isIntermediate 0))
      (append_error (Error_init mesh None))) ;;;
  return_errors.

Definition checkIt_DisplayLayer (root : list string) : Chk (list Error) :=
  set_errors [] ;;;
  objs <- call (listRelatives root (lr_ad "transform")) ;;
  for_each (or_empty objs) (fun obj =>
    layers <- call (listConnections (obj ++ ".drawOverride") false) ;;
    when (truthy layers)
      (append_error (Error_init obj (Some (or_empty layers))))) ;;;
  return_errors.

(** [UnusedLayerChecker.checkIt]: [root] is not read. *)
Definition checkIt_UnusedLayer (root : list string) : Chk (list Error) :=
  set_errors [] ;;;
  layers <- call (ls_type "displayLayer") ;;
  layers <- lift_result (remove_first "defaultLayer" layers) ;;
  for_each layers (fun layer =>
    contents <- call (editDisplayLayerMembers layer) ;;
    match contents with
    | None => append_error (Error_init layer (Some [layer]))
    | Some _ => ret tt
    end) ;;;
  return_errors.

Definition checkIt_Map1 (root : list string) : Chk (list Error) :=
  set_errors [] ;;;
  meshes <- call (listRelatives root (lr_ad "mesh")) ;;
  for_each (or_empty meshes) (fun mesh =>
    sets <- call (polyUVSet_current mesh) ;;
    curUVSet <- lift_result (index0 sets) ;;
    when (negb (String.eqb curUVSet "map1"))
      (append_error (Error_init mesh None))) ;;;
  return_errors.

(** The addresses of the UVs with a negative coordinate:
    [dagPath.fullPathName() + ".map[{}]".format(index)]. *)
Definition negative_uvs (path : string) (uArray vArray : list float)
    : list string :=
  map (fun iuv => (path ++ ".map[" ++ str_of_nat (fst iuv) ++ "]")%string)
      (filter (fun iuv =>
                 PrimFloat.ltb (fst (snd iuv)) 0 || PrimFloat.ltb (snd (snd iuv)) 0)
              (enumerate (combine uArray vArray))).

Definition checkIt_NegativeUv (root : list string) : Chk (list Error) :=
  set_errors [] ;;;
  objs <- call (listRelatives root (lr_ad "transform")) ;;
  for_each (or_empty objs) (fun obj => call (MSelectionList_add obj)) ;;;
  for_each (or_empty objs) (fun dagPath =>
    try_pass is_RuntimeError
      (dagPath <- call (MDagPath_extendToShape dagPath) ;;
       uvs <- call (MFnMesh_getUVs dagPath) ;;
       let badUVs := negative_uvs dagPath (fst uvs) (snd uvs) in
       when (truthy (Some badUVs))
         (append_error (Error_init dagPath (Some badUVs))))) ;;;
  return_errors.

Definition checkIt_UvOverlap (root : list string) : Chk (list Error) :=
  set_errors [] ;;;
  objs <- call (listRelatives root (lr_ad "mesh")) ;;
  for_each (or_empty objs) (fun obj => call (MSelectionList_add obj)) ;;;
  for_each (or_empty objs) (fun dagPath =>
    try_pass is_RuntimeError
      (call (MDagPath_extendToShape dagPath) ;;; ret tt)) ;;;
  return_errors.

(** [SelectionSetChecker.getSets]. *)
Definition getSets (path typ : string) : Chk (list string) :=
  if String.eqb typ "transform" then
    conns <- call (listConnections (path ++ ".instObjGroups") false) ;;
    filter_m (fun i => t <- call (objectType i) ;; ret (String.eqb t "objectSet"))
             (or_empty conns)
  else if String.eqb typ "shape" then
    conns <- call (listConnections (path ++ ".instObjGroups.objectGroups") false) ;;
    filter_m (fun i => t <- call (objectType i) ;; ret (String.eqb t "objectSet"))
             (or_empty conns)
  else ret [].

Definition checkIt_SelectionSet (root : list string) : Chk (list Error) :=
  set_errors [] ;;;
  objs <- call (listRelatives root (lr_ad "transform")) ;;
  objectSets <- concat_m (fun obj =>
      shapes <- call (listRelatives [obj] lr_shapes) ;;
      of_shapes <- concat_m (fun shape => getSets shape "shape") (or_empty shapes) ;;
      of_obj <- getSets obj "transform" ;;
      ret (of_shapes ++ of_obj)) (or_empty objs) ;;
  let objectSets := distinct objectSets in
  for_each objectSets (fun objSet =>
    when (negb (match_modelPanelSet objSet))
      (append_error (Error_init objSet None))) ;;;
  return_errors.

Definition checkIt_ColorSet (root : list string) : Chk (list Error) :=
  set_errors [] ;;;
  objs <- call (listRelatives root (lr_ad "mesh")) ;;
  for_each (or_empty objs) (fun obj =>
    try_pass is_RuntimeError
      (allColorSets <- call (polyColorSet_all obj) ;;
       match allColorSets with
       | None => ret tt
       | Some _ => append_error (Error_init obj None)
       end)) ;;;
  return_errors.

(** The body of [checkIt] for each class. *)
Definition checkIt_body (k : CheckerClass) (objs : list string)
    (settings : option Settings) : Chk (list Error) :=
  match k with
  | NameChecker => checkIt_Name objs
  | ShapeNameChecker => checkIt_ShapeName objs
  | HistoryChecker => checkIt_History objs
  | TransformChecker => checkIt_Transform objs
  | LockedTransformChecker => checkIt_LockedTransform objs
  | SmoothPreviewChecker => checkIt_SmoothPreview objs
  | KeyframeChecker => checkIt_Keyframe objs
  | TriangleChecker => checkIt_aggregated (checkMesh objs 0 None)
  | NgonChecker => checkIt_aggregated (checkMesh objs 1 None)
  | NonmanifoldEdgeChecker => checkIt_aggregated (checkMesh objs 2 None)
  | NonmanifoldVertexChecker => checkIt_NonmanifoldVertex objs
  | LaminaFaceChecker => checkIt_aggregated (checkMesh objs 3 None)
  | BiValentFaceChecker => checkIt_aggregated (checkMesh objs 4 None)
  | ZeroAreaFaceChecker => checkIt_ZeroAreaFace objs settings
  | MeshBorderEdgeChecker => checkIt_aggregated (checkMesh objs 6 None)
  | CreaseEdgeChecker => checkIt_aggregated (checkMesh objs 7 None)
  | ZeroLengthEdgeChecker => checkIt_aggregated (checkMesh objs 8 None)
  | VertexPntsChecker => checkIt_whole (checkMesh objs 9 None)
  | EmptyGeometryChecker => checkIt_whole (checkMesh objs 10 None)
  | UnusedVertexChecker => checkIt_aggregated (checkMesh objs 11 None)
  | IntermediateObjectChecker => checkIt_IntermediateObject objs
  | InstanceShapeChecker => checkIt_whole (checkMesh objs 12 None)
  | ConnectionChecker => checkIt_whole (checkMesh objs 13 None)
  | DisplayLayerCheck => checkIt_DisplayLayer objs
  | UnusedLayerChecker => checkIt_UnusedLayer objs
  | Map1Checker => checkIt_Map1 objs
  | NegativeUvChecker => checkIt_NegativeUv objs
  | UdimIntersectionChecker => checkIt_aggregated (checkUV objs 0)
  | UnassignedUvChecker => checkIt_aggregated (checkUV objs 3)
  | UnmappedPolygonFaceChecker => checkIt_aggregated (checkUV objs 1)
  | ZeroAreaUVFaceChecker => checkIt_aggregated (checkUV objs 2)
  | ConcaveUVChecker => checkIt_aggregated (checkUV objs 5)
  | ReversedUVChecker => checkIt_aggregated (checkUV objs 6)
  | UvOverlapChecker => checkIt_UvOverlap objs
  | SelectionSetChecker => checkIt_SelectionSet objs
  | ColorSetChecker => checkIt_ColorSet objs
  end.

(** [self.checkIt(objs, settings)]: dispatch on the class of [self]. *)
Definition checkIt (objs : list string) (settings : option Settings)
    : Chk (list Error) :=
  this <- self ;;
  log (CheckIt_called (name this) objs) ;;;
  checkIt_body (cls this) objs settings.

(** *** [fixIt] of each class *)

Definition fixIt_VertexPnts : Chk unit :=
  this <- self ;;
  for_each (enumerate (errors this)) (fun ne =>
    let e := snd ne in
    exists_ <- call (objExists (longName e)) ;;
    when exists_
      (let obj := longName e in
       call (MSelectionList_add obj) ;;;
       try_pass is_RuntimeError (call (polyMoveVertex obj)))).

Definition fixIt_ShapeName : Chk unit :=
  this <- self ;;
  for_each (errors this) (fun e =>
    let shape := longName e in
    parents <- call (listRelatives [shape] (lr_parent false)) ;;
    parent <- lift_result (index0 parents) ;;
    let newShapeName := (parent ++ "Shape")%string in
    call (rename shape newShapeName) ;;; ret tt).

Definition fixIt_History : Chk unit :=
  this <- self ;;
  for_each (errors this) (fun e => call (delete (Some [longName e]) true)).

Definition fixIt_LockedTransform : Chk unit :=
  this <- self ;;
  for_each (errors this) (fun e =>
    for_each attrs (fun at_ =>
      call (setAttr_lock (longName e ++ "." ++ at_) false))).

Definition fixIt_SmoothPreview : Chk unit :=
  this <- self ;;
  for_each (errors this) (fun e =>
    call (setAttr (longName e ++ ".displaySmoothMesh") 0)).

Definition fixIt_Keyframe : Chk unit :=
  this <- self ;;
  for_each (errors this) (fun e => call (delete (components e) false)).

Definition fixIt_IntermediateObject : Chk unit :=
  this <- self ;;
  for_each (errors this) (fun e =>
    let shape := longName e in
    exists_ <- call (objExists shape) ;;
    when exists_
      (parents <- call (listRelatives [shape] (lr_parent true)) ;;
       for_each (or_empty parents) (fun i => call (delete (Some [i]) true)) ;;;
       try_pass is_ValueError (call (delete (Some [shape]) false)))).

Definition fixIt_DisplayLayer : Chk unit :=
  this <- self ;;
  for_each (errors this) (fun e =>
    let layers := components e in
    let node := longName e in
    for_each_opt layers (fun layer =>
      call (disconnectAttr (layer ++ ".drawInfo") (node ++ ".drawOverride")))).

Definition fixIt_UnusedLayer : Chk unit :=
  this <- self ;;
  for_each (errors this) (fun e =>
    try_pass is_RuntimeError (call (delete (Some [longName e]) false))).

Definition fixIt_Map1 : Chk unit :=
  this <- self ;;
  for_each (errors this) (fun e =>
    call (polyUVSet_setCurrent (longName e) "map1")).

Definition fixIt_SelectionSet : Chk unit :=
  this <- self ;;
  for_each (errors this) (fun e =>
    try_pass is_Exception (call (delete (Some [longName e]) false))).

Definition fixIt_ColorSet : Chk unit :=
  this <- self ;;
  for_each (errors this) (fun i =>
    allSets <- call (polyColorSet_all (longName i)) ;;
    for_each (or_empty allSets) (fun s =>
      call (polyColorSet_delete (longName i) s))).

(** The body of [fixIt] for each class; the classes not listed have
    [pass]. *)
Definition fixIt_body (k : CheckerClass) : Chk unit :=
  match k with
  | VertexPntsChecker => fixIt_VertexPnts
  | ShapeNameChecker => fixIt_ShapeName
  | HistoryChecker => fixIt_History
  | LockedTransformChecker => fixIt_LockedTransform
  | SmoothPreviewChecker => fixIt_SmoothPreview
  | KeyframeChecker => fixIt_Keyframe
  | IntermediateObjectChecker => fixIt_IntermediateObject
  | DisplayLayerCheck => fixIt_DisplayLayer
  | UnusedLayerChecker => fixIt_UnusedLayer
  | Map1Checker => fixIt_Map1
  | SelectionSetChecker => fixIt_SelectionSet
  | ColorSetChecker => fixIt_ColorSet
  | _ => ret tt
  end.

(** [self.fixIt()]: dispatch on the class of [self]. *)
Definition fixIt : Chk unit :=
  this <- self ;;
  log (FixIt_called (name this)) ;;;
  fixIt_body (cls this).

(** ** modelSanityChecker.py: the widgets and the batch operations *)

(** A [CheckerWidget]: the checker it owns, the settings object, and the
    parts of the Qt state the methods write. *)
Record CheckerWidget := {
  checker : BaseChecker;
  settings : option Settings;
  checkbox : bool;
  frameEnabled : bool;
  errorList : list Error;
  statusIcon : option string
}.

Definition Wdg (A : Type) : Type := M (CheckerWidget * World) A.

Definition widget : Wdg CheckerWidget := gets fst.

Definition set_checker (c : BaseChecker) (w : CheckerWidget) : CheckerWidget :=
  {| checker := c; settings := settings w; checkbox := checkbox w;
     frameEnabled := frameEnabled w; errorList := errorList w;
     statusIcon := statusIcon w |}.

(** A method call on [self.checker] from a widget method. *)
Definition on_checker {A} (m : Chk A) : Wdg A :=
  zoom (fun st => (checker (fst st), snd st))
       (fun cst st => (set_checker (fst cst) (fst st), snd cst))
       m.

(** [CheckerWidget.setEnabled(state)].  [checkbox.setChecked] re-enters
    [toggleEnable] with the same state, which writes the same values. *)
Definition setEnabled (state : bool) : Wdg unit :=
  modify (fun st =>
    let w := fst st in
    ({| checker := {| cls := cls (checker w); isEnabled := state;
                      errors := errors (checker w) |};
        settings := settings w;
        checkbox := state;
        frameEnabled := state;
        errorList := errorList w;
        statusIcon := statusIcon w |},
     snd st)).

(** [CheckerWidget(chk, settings)]: [createUI] ends with
    [setEnabled(self.checker.isEnabled)]. *)
Definition CheckerWidget_init (chk : BaseChecker) (s : option Settings)
    : CheckerWidget :=
  {| checker := chk; settings := s; checkbox := isEnabled chk;
     frameEnabled := isEnabled chk; errorList := []; statusIcon := None |}.

(** [CheckerWidget.toggleEnable(state)]: Qt passes the check state,
    [2] for checked. *)
Definition toggleEnable (state : Z) : Wdg unit :=
  if Z.eqb state 2 then setEnabled true else setEnabled false.

Definition set_errorList (l : list Error) : Wdg unit :=
  modify (fun st =>
    let w := fst st in
    ({| checker := checker w; settings := settings w; checkbox := checkbox w;
        frameEnabled := frameEnabled w; errorList := l;
        statusIcon := statusIcon w |},
     snd st)).

Definition addItem (e : Error) : Wdg unit :=
  modify (fun st =>
    let w := fst st in
    ({| checker := checker w; settings := settings w; checkbox := checkbox w;
        frameEnabled := frameEnabled w; errorList := errorList w ++ [e];
        statusIcon := statusIcon w |},
     snd st)).

Definition setStatusIcon (icon : string) : Wdg unit :=
  modify (fun st =>
    let w := fst st in
    ({| checker := checker w; settings := settings w; checkbox := checkbox w;
        frameEnabled := frameEnabled w; errorList := errorList w;
        statusIcon := Some icon |},
     snd st)).

(** [CheckerWidget.doCheck(objs)]. *)
Definition doCheck (objs : list string) : Wdg unit :=
  set_errorList [] ;;;
  this <- widget ;;
  errs <- on_checker (checkIt objs (settings this)) ;;
  if truthy (Some errs) then
    for_each errs (fun err =>
      addItem err ;;;
      if isWarning (checker this) then setStatusIcon "warning"
      else setStatusIcon "bad")
  else setStatusIcon "good".

(** [CheckerWidget.check(path=None)]. *)
Definition check (path : option string) : Wdg unit :=
  this <- widget ;;
  if negb (isEnabled (checker this)) then ret tt
  else
    let continue_with (path : string) : Wdg unit :=
      children <- call (listRelatives [path] (lr_children_ad "transform")) ;;
      let children := or_empty children in
      let children := children ++ [path] in
      doCheck children in
    match path with
    | None =>
        sel <- call ls_selection ;;
        match sel with
        | [] => call (warning "Nothing is selected")
        | path :: _ => continue_with path
        end
    | Some path => continue_with path
    end.

(** [CheckerWidget.fix()]. *)
Definition fix_ : Wdg unit :=
  this <- widget ;;
  if negb (isEnabled (checker this)) then ret tt
  else
    on_checker fixIt ;;;
    check None.

(** [for w in widgets: body]: every widget is its own object, so the
    body of one iteration writes that widget and the world; an exception
    leaves the later widgets untouched. *)
Fixpoint for_widgets (body : Wdg unit) (ws : list CheckerWidget) (w : World)
    : result unit * (list CheckerWidget * World) :=
  match ws with
  | [] => (Ok tt, ([], w))
  | x :: ws' =>
      match body (x, w) with
      | (Ok _, (x', w')) =>
          let '(r, (ws'', w'')) := for_widgets body ws' w' in
          (r, (x' :: ws'', w''))
      | (Raise e, (x', w')) => (Raise e, (x' :: ws', w'))
      end
  end.

(** [Separator.checkboxToggle(state)], one iteration: [self.category] is
    the separator's category, [w] the widget of the iteration. *)
Definition checkboxToggle_body (sep_category : string) (state : Z) : Wdg unit :=
  w <- widget ;;
  if String.eqb sep_category (category (checker w)) then
    if Z.eqb state 2 then setEnabled true else setEnabled false
  else ret tt.

(** [Separator.checkboxToggle(state)] over the list of widgets that the
    separator shares with the main window. *)
Definition checkboxToggle (sep_category : string) (state : Z)
    (ws : list CheckerWidget) (w : World)
    : result unit * (list CheckerWidget * World) :=
  for_widgets (checkboxToggle_body sep_category state) ws w.

(** [list.sort()] on the checker objects: a stable sort by [__lt__]. *)
Fixpoint insert_sorted (x : BaseChecker) (l : list BaseChecker)
    : list BaseChecker :=
  match l with
  | [] => [x]
  | y :: l' =>
      if BaseChecker_lt y x then y :: insert_sorted x l' else x :: y :: l'
  end.

Definition sort (l : list BaseChecker) : list BaseChecker :=
  fold_right insert_sorted [] l.

(** The main window: the widgets in display order and the text of the
    root line edit. *)
Record ModelSanityChecker := {
  checkerWidgets : list CheckerWidget;
  rootLE : string
}.

(** [ModelSanityChecker(settings)]. *)
Definition ModelSanityChecker_init (s : option Settings) : ModelSanityChecker :=
  let checkerObjs := map BaseChecker_init CHECKERS in
  let checkerObjs := sort checkerObjs in
  {| checkerWidgets := map (fun i => CheckerWidget_init i s) checkerObjs;
     rootLE := "" |}.

(** One iteration of the loop of [checkAll]; the progress dialog is
    presentation only. *)
Definition checkAll_body (node : string) : Wdg unit :=
  w <- widget ;;
  if isEnabled (checker w) then
    if String.eqb node "" then check None else check (Some node)
  else ret tt.

(** [ModelSanityChecker.checkAll()]. *)
Definition checkAll (app : ModelSanityChecker) (w : World)
    : result unit * (ModelSanityChecker * World) :=
  let node := rootLE app in
  let '(r, (ws, w')) := for_widgets (checkAll_body node) (checkerWidgets app) w in
  (r, ({| checkerWidgets := ws; rootLE := rootLE app |}, w')).

(** [ModelSanityChecker.fixAll()]. *)
Definition fixAll (app : ModelSanityChecker) (w : World)
    : result unit * (ModelSanityChecker * World) :=
  let '(r, (ws, w')) := for_widgets fix_ (checkerWidgets app) w in
  (r, ({| checkerWidgets := ws; rootLE := rootLE app |}, w')).

End Engine.

Arguments scene {Scene} w.
Arguments trace {Scene} w.
Arguments Build_World {Scene} scene trace.
Arguments checkIt {Scene} host objs settings st.
Arguments checkIt_body {Scene} host k objs settings st.
Arguments checkIt_aggregated {Scene} host oracle st.
Arguments fixIt {Scene} host st.
Arguments fixIt_body {Scene} host k st.
Arguments doCheck {Scene} host objs st.
Arguments check {Scene} host path st.
Arguments fix_ {Scene} host st.
Arguments for_widgets {Scene} body ws w.
Arguments checkboxToggle {Scene} sep_category state ws w.
Arguments checkAll {Scene} host app w.
Arguments fixAll {Scene} host app w.

(** ** Notions used in the statements *)

(** Number of occurrences of a character in a string. *)
Fixpoint count_char (c : ascii) (s : string) : nat :=
  match s with
  | EmptyString => 0
  | String a rest => (if Ascii.eqb a c then 1 else 0) + count_char c rest
  end.

(** The part of [s] before the first [c] (all of [s] when there is none)
    and the part after it. *)
Fixpoint before_first (c : ascii) (s : string) : string :=
  match s with
  | EmptyString => EmptyString
  | String a rest => if Ascii.eqb a c then EmptyString
                     else String a (before_first c rest)
  end.

Fixpoint after_first (c : ascii) (s : string) : string :=
  match s with
  | EmptyString => EmptyString
  | String a rest => if Ascii.eqb a c then rest else after_first c rest
  end.

(** The owner of a raw identifier [owner.component]. *)
Definition owner_of (e : string) : string := before_first "." e.

(** A raw identifier in the oracle's format: one ['.'], between the owner
    path and the component. *)
Definition oracle_format (e : string) : Prop := count_char "." e = 1.

(** The oracle call of the checkers that hand the scan to [checkMesh] or
    [checkUV]; [mfa] is the threshold ZeroAreaFaceChecker read from the
    settings. *)
Definition oracle_of (k : CheckerClass) (objs : list string) (mfa : float)
    : option (cmd (list string)) :=
  match k with
  | TriangleChecker => Some (checkMesh objs 0 None)
  | NgonChecker => Some (checkMesh objs 1 None)
  | NonmanifoldEdgeChecker => Some (checkMesh objs 2 None)
  | LaminaFaceChecker => Some (checkMesh objs 3 None)
  | BiValentFaceChecker => Some (checkMesh objs 4 None)
  | ZeroAreaFaceChecker => Some (checkMesh objs 5 (Some mfa))
  | MeshBorderEdgeChecker => Some (checkMesh objs 6 None)
  | CreaseEdgeChecker => Some (checkMesh objs 7 None)
  | ZeroLengthEdgeChecker => Some (checkMesh objs 8 None)
  | VertexPntsChecker => Some (checkMesh objs 9 None)
  | EmptyGeometryChecker => Some (checkMesh objs 10 None)
  | UnusedVertexChecker => Some (checkMesh objs 11 None)
  | InstanceShapeChecker => Some (checkMesh objs 12 None)
  | ConnectionChecker => Some (checkMesh objs 13 None)
  | UdimIntersectionChecker => Some (checkUV objs 0)
  | UnmappedPolygonFaceChecker => Some (checkUV objs 1)
  | ZeroAreaUVFaceChecker => Some (checkUV objs 2)
  | UnassignedUvChecker => Some (checkUV objs 3)
  | ConcaveUVChecker => Some (checkUV objs 5)
  | ReversedUVChecker => Some (checkUV objs 6)
  | _ => None
  end.

(** The checkers that aggregate the oracle's answer per owner. *)
Definition aggregating (k : CheckerClass) : bool :=
  match k with
  | TriangleChecker | NgonChecker | NonmanifoldEdgeChecker
  | LaminaFaceChecker | BiValentFaceChecker | ZeroAreaFaceChecker
  | MeshBorderEdgeChecker | CreaseEdgeChecker | ZeroLengthEdgeChecker
  | UnusedVertexChecker | UdimIntersectionChecker | UnassignedUvChecker
  | UnmappedPolygonFaceChecker | ZeroAreaUVFaceChecker | ConcaveUVChecker
  | ReversedUVChecker => true
  | _ => false
  end.

(** The dict update of one iteration, for an identifier filed under
    [base]. *)
Definition dict_file (base e : string) (d : errorsDict) : errorsDict :=
  if dict_contains base d then dict_append base e d else dict_new base e d.

(** [errorsDict.get(base)]. *)
Fixpoint dict_get (base : string) (d : errorsDict) : option (list string) :=
  match d with
  | [] => None
  | (k, v) :: d' => if String.eqb k base then Some v else dict_get base d'
  end.

(** The [Error] emitted for one dict entry. *)
Definition finding_of (kv : string * list string) : Error :=
  Error_init (fst kv) (Some (snd kv)).

(** The dict after the grouping loop over identifiers that all split in
    two. *)
Definition filed (errs : list string) (d : errorsDict) : errorsDict :=
  fold_left (fun d e => dict_file (owner_of e) e d) errs d.

(** The world after the entry into [checkIt] has been recorded. *)
Definition entered {Scene} (c : BaseChecker) (objs : list string)
    (w : World Scene) : World Scene :=
  {| scene := scene w;
     trace := trace w ++ [CheckIt_called (name c) objs] |}.

(** The checkers whose [checkIt] reads the scene only through its
    [objs] argument and guards a traversal that finds nothing. *)
Definition empty_safe (k : CheckerClass) : bool :=
  match k with
  | UnusedLayerChecker | NonmanifoldVertexChecker
  | IntermediateObjectChecker => false
  | _ => true
  end.

(** A checker method that leaves [self] as it found it. *)
Definition keeps_self {Scene A} (m : M (BaseChecker * World Scene) A) : Prop :=
  forall c w, fst (snd (m (c, w))) = c.

(** [self.errors = l] as a function on the checker. *)
Definition with_errors (c : BaseChecker) (l : list Error) : BaseChecker :=
  {| cls := cls c; isEnabled := isEnabled c; errors := l |}.

(** Did the trace record an entry into [checkIt] (or [fixIt]) of the
    checker with this name? *)
Definition checkIt_invoked (n : string) (tr : list Event) : bool :=
  existsb (fun ev => match ev with
                     | CheckIt_called m _ => String.eqb m n
                     | FixIt_called _ => false
                     end) tr.

Definition fixIt_invoked (n : string) (tr : list Event) : bool :=
  existsb (fun ev => match ev with
                     | FixIt_called m => String.eqb m n
                     | CheckIt_called _ _ => false
                     end) tr.

(** A host answers nothing for an empty list of objects: the oracles
    report no defect and [listRelatives] finds no relative. *)
Definition quiet_on_empty {Scene} (host : Host Scene) : Prop :=
  (forall sc c mfa, exists sc',
      host _ (checkMesh [] c mfa) sc = (Ok [], sc')) /\
  (forall sc c, exists sc', host _ (checkUV [] c) sc = (Ok [], sc')) /\
  (forall sc fl, exists r sc',
      host _ (listRelatives [] fl) sc = (Ok r, sc') /\ or_empty r = []).

(** ** Concrete scenes for the examples *)

Module Toy.

(** What a host did to the scene. *)
Inductive Mutation :=
| Renamed (node newName : string)
| Deleted (objs : option (list string)) (ch : bool)
| Unlocked (plug : string)
| AttrSet (plug : string) (value : Z)
| VerticesReset (obj : string)
| UVSetChosen (mesh uvSet : string)
| ColorSetDeleted (obj colorSet : string)
| Disconnected (src dst : string).

(** A scene reduced to the nodes that exist, the display layers, the
    current selection and the journal of the mutations performed. *)
Record ToyScene := {
  existing : list string;
  layers : list string;
  selected : list string;
  performed : list Mutation
}.

Definition did (m : Mutation) (s : ToyScene) : ToyScene :=
  {| existing := existing s; layers := layers s; selected := selected s;
     performed := performed s ++ [m] |}.

(** The short name of the parent in a full path [|a|b|c]. *)
Definition parent_name (path : string) : string :=
  last (removelast (split "|" path)) EmptyString.

(** A scene in which nothing is wrong: every query finds nothing, every
    mutation succeeds and is written to the journal. *)
Definition quiet_host : Host ToyScene := fun T c s =>
  match c in cmd T return result T * ToyScene with
  | checkMesh _ _ _ => (Ok [], s)
  | checkUV _ _ => (Ok [], s)
  | listRelatives _ _ => (Ok None, s)
  | polyInfo_nmv _ => (Ok None, s)
  | getAttr _ => (Ok 0%Z, s)
  | getAttr_lock _ => (Ok false, s)
  | listConnections _ _ => (Ok None, s)
  | objectType _ => (Ok "transform", s)
  | ls_type _ => (Ok (layers s), s)
  | ls_selection => (Ok (selected s), s)
  | editDisplayLayerMembers _ => (Ok None, s)
  | polyUVSet_current _ => (Ok (Some ["map1"]), s)
  | polyUVSet_setCurrent m u => (Ok tt, did (UVSetChosen m u) s)
  | polyColorSet_all _ => (Ok None, s)
  | polyColorSet_delete o cs => (Ok tt, did (ColorSetDeleted o cs) s)
  | objExists n => (Ok (mem n (existing s)), s)
  | polyMoveVertex o => (Ok tt, did (VerticesReset o) s)
  | rename a b => (Ok b, did (Renamed a b) s)
  | delete objs ch => (Ok tt, did (Deleted objs ch) s)
  | setAttr p v => (Ok tt, did (AttrSet p v) s)
  | setAttr_lock p _ => (Ok tt, did (Unlocked p) s)
  | disconnectAttr a b => (Ok tt, did (Disconnected a b) s)
  | warning _ => (Ok tt, s)
  | MSelectionList_add _ => (Ok tt, s)
  | MFnDagNode_transformationMatrix _ => (Ok kIdentity, s)
  | MDagPath_extendToShape _ => (Raise RuntimeError, s)
  | MFnMesh_getUVs _ => (Ok ([], []), s)
  end.

(** The meshChecker plugin is not loaded or rejects the objects: the
    oracle call raises. *)
Definition failing_oracle_host : Host ToyScene := fun T c s =>
  match c in cmd T return result T * ToyScene with
  | checkMesh _ _ _ => (Raise RuntimeError, s)
  | c' => quiet_host _ c' s
  end.

(** The oracle reports face 0 of every object it is given. *)
Definition echo_host : Host ToyScene := fun T c s =>
  match c in cmd T return result T * ToyScene with
  | checkMesh objs _ _ => (Ok (map (fun o => o ++ ".f[0]")%string objs), s)
  | c' => quiet_host _ c' s
  end.

(** Maya's answer to a command that names a node which does not exist:
    [No object matches name]. *)
Definition maya_host : Host ToyScene := fun T c s =>
  match c in cmd T return result T * ToyScene with
  | listRelatives [node] fl =>
      if mem node (existing s)
      then (if parent fl then Ok (Some [parent_name node]) else Ok None, s)
      else (Raise ValueError, s)
  | rename a b =>
      if mem a (existing s) then (Ok b, did (Renamed a b) s)
      else (Raise RuntimeError, s)
  | setAttr_lock p l =>
      if mem (before_first "." p) (existing s) then (Ok tt, did (Unlocked p) s)
      else (Raise RuntimeError, s)
  | delete (Some objs) ch =>
      if forallb (fun o => mem o (existing s)) objs
      then (Ok tt, did (Deleted (Some objs) ch) s)
      else (Raise ValueError, s)
  | c' => quiet_host _ c' s
  end.

(** The oracle's answer in the example of the specification. *)
Definition example_ids : list string :=
  ["|a|b.f[1]"; "|a|b.f[2]"; "|a|c.f[0]"].

Definition example_host : Host ToyScene := fun T c s =>
  match c in cmd T return result T * ToyScene with
  | checkMesh _ _ _ => (Ok example_ids, s)
  | c' => quiet_host _ c' s
  end.

Definition empty_scene : ToyScene :=
  {| existing := []; layers := ["defaultLayer"]; selected := [];
     performed := [] |}.

Definition world0 (s : ToyScene) : World ToyScene :=
  {| scene := s; trace := [] |}.

End Toy.

(** The widget of the Name checker, which is disabled by default. *)
Definition name_widget : CheckerWidget :=
  CheckerWidget_init (BaseChecker_init NameChecker) None.

(** A scene with the node [|a], which is selected. *)
Definition selected_a : World Toy.ToyScene :=
  Toy.world0 {| Toy.existing := ["|a"]; Toy.layers := ["defaultLayer"];
                Toy.selected := ["|a"]; Toy.performed := [] |}.

(** The settings tab with its initial text, ["0.000001"], as [float()]
    reads it. *)
Definition settings0 : option Settings :=
  Some {| maxFaceArea_text := Some 0x1.0c6f7a0b5ed8dp-20%float |}.

(** The main window as the application builds it. *)
Definition app0 : ModelSanityChecker := ModelSanityChecker_init settings0.

(** A Triangles checker that has cached one finding. *)
Definition triangle_with_finding : BaseChecker :=
  with_errors (BaseChecker_init TriangleChecker)
              [finding_of ("|a|b", ["|a|b.f[1]"])].

(** A scene with one display layer that has no member. *)
Definition one_unused_layer : World Toy.ToyScene :=
  Toy.world0 {| Toy.existing := []; Toy.layers := ["defaultLayer"; "layer1"];
                Toy.selected := []; Toy.performed := [] |}.

(** A scene with the nodes [|a] and [|b]; [|b] is selected. *)
Definition selected_b : World Toy.ToyScene :=
  Toy.world0 {| Toy.existing := ["|a"; "|b"]; Toy.layers := ["defaultLayer"];
                Toy.selected := ["|b"]; Toy.performed := [] |}.

(** The widget of the Triangles checker. *)
Definition triangle_widget : CheckerWidget :=
  CheckerWidget_init (BaseChecker_init TriangleChecker) None.

(** The window's widgets around the fifth one, the Vertex Pnts checker,
    the first in display order that calls the mesh oracle. *)
Definition widgets_before_VertexPnts : list CheckerWidget :=
  firstn 4 (checkerWidgets app0).

Definition VertexPnts_widget : CheckerWidget :=
  CheckerWidget_init (BaseChecker_init VertexPntsChecker) settings0.

Definition widgets_after_VertexPnts : list CheckerWidget :=
  skipn 5 (checkerWidgets app0).

(** A scene in which [|grp1|gone] has been deleted since the last check;
    [|grp2] and its shape are still there. *)
Definition stale_world : World Toy.ToyScene :=
  Toy.world0 {| Toy.existing := ["|grp2"; "|grp2|ballShape1"];
                Toy.layers := ["defaultLayer"];
                Toy.selected := []; Toy.performed := [] |}.

(** Cached findings whose first owner is the deleted node. *)
Definition stale_findings (k : CheckerClass) : BaseChecker :=
  with_errors (BaseChecker_init k)
    [Error_init "|grp1|gone" None; Error_init "|grp2|ballShape1" None].

(** The widgets of the window as it opens. *)
Definition widgets0 : list CheckerWidget :=
  checkerWidgets (ModelSanityChecker_init None).

(** ** Notions used in the further properties *)

(** The dict in closed form: the owners in order of first appearance,
    each with its identifiers in input order. *)
Definition grouped (errs : list string) : errorsDict :=
  map (fun o => (o, filter (fun e => String.eqb (owner_of e) o) errs))
      (distinct (map owner_of errs)).

(** The checkers whose oracle answers whole objects. *)
Definition whole_object (k : CheckerClass) : bool :=
  match k with
  | VertexPntsChecker | EmptyGeometryChecker | InstanceShapeChecker
  | ConnectionChecker => true
  | _ => false
  end.

(** The checkers that walk the answer of [listRelatives(...) or []]. *)
Definition guarded_traversal (k : CheckerClass) : bool :=
  match k with
  | ShapeNameChecker | HistoryChecker | TransformChecker
  | LockedTransformChecker | SmoothPreviewChecker | KeyframeChecker
  | DisplayLayerCheck | Map1Checker | NegativeUvChecker | UvOverlapChecker
  | SelectionSetChecker | ColorSetChecker => true
  | _ => false
  end.

(** A computation leaves a view of the state as it found it, whether it
    returns or raises. *)
Definition unchanged {St X A} (view : St -> X) (m : M St A) : Prop :=
  forall s, view (snd (m s)) = view s.

(** What a run of [checkIt] cannot change in a checker. *)
Definition checker_identity {Scene} (st : BaseChecker * World Scene)
    : CheckerClass * bool :=
  (cls (fst st), isEnabled (fst st)).

(** What a check or a fix cannot change in a widget. *)
Definition widget_identity (w : CheckerWidget)
    : CheckerClass * bool * option Settings * bool * bool :=
  (cls (checker w), isEnabled (checker w), settings w, checkbox w,
   frameEnabled w).

(** A computation that answers the cached findings when it returns. *)
Definition returns_cache {Scene}
    (m : M (BaseChecker * World Scene) (list Error)) : Prop :=
  forall st fs st', m st = (Ok fs, st') -> errors (fst st') = fs.

(** The checkbox and the frame of a widget show the enablement of its
    checker. *)
Definition synced (w : CheckerWidget) : Prop :=
  checkbox w = isEnabled (checker w) /\ frameEnabled w = isEnabled (checker w).

(** The icon [doCheck] sets for a list of findings. *)
Definition icon_for (warn : bool) (errs : list Error) : string :=
  match errs with
  | [] => "good"
  | _ => if warn then "warning" else "bad"
  end.

(** The world after the entry into [fixIt] has been recorded. *)
Definition fix_entered {Scene} (c : BaseChecker) (w : World Scene)
    : World Scene :=
  {| scene := scene w; trace := trace w ++ [FixIt_called (name c)] |}.

(** An oracle answer with interleaved owners and a repeated identifier. *)
Definition shuffled_ids : list string :=
  ["|a|c.f[0]"; "|a|b.f[2]"; "|a|c.f[0]"; "|a|b.f[1]"].

Definition shuffled_host : Host Toy.ToyScene := fun T c s =>
  match c in cmd T return result T * Toy.ToyScene with
  | checkMesh _ _ _ => (Ok shuffled_ids, s)
  | c' => Toy.quiet_host _ c' s
  end.

(** An oracle answer with one identifier that has two ['.']. *)
Definition malformed_ids : list string :=
  ["|a|b.f[1]"; "|a|b.pnts[0].pntx"; "|a|c.f[0]"].

Definition malformed_host : Host Toy.ToyScene := fun T c s =>
  match c in cmd T return result T * Toy.ToyScene with
  | checkMesh _ _ _ => (Ok malformed_ids, s)
  | c' => Toy.quiet_host _ c' s
  end.

(** The identity of the widget in the state of a widget method. *)
Definition wview {Scene} (st : CheckerWidget * World Scene) :=
  widget_identity (fst st).

(** A scene whose list of display layers lacks the default layer. *)
Definition no_default_layer : World Toy.ToyScene :=
  Toy.world0 {| Toy.existing := []; Toy.layers := ["layer1"];
                Toy.selected := []; Toy.performed := [] |}.

(** A scene in which the transforms [|a|x] and [|a|y] both belong to the
    object set [set1]. *)
Definition sets_host : Host Toy.ToyScene := fun T c s =>
  match c in cmd T return result T * Toy.ToyScene with
  | listRelatives _ fl =>
      (Ok (if ad fl then Some ["|a|x"; "|a|y"] else None), s)
  | listConnections _ _ => (Ok (Some ["set1"]), s)
  | objectType _ => (Ok "objectSet", s)
  | c' => Toy.quiet_host _ c' s
  end.

(** * Properties *)

(** ** Equality of checkers *)

(** C10. [BaseChecker.__eq__] compares the name of [self] with itself, so
    for any two checker instances, of whatever classes, names and
    categories, [a == b] is [True] and [a != b] is [False]. *)
Theorem BaseChecker_eq_degenerate :
  forall a b : BaseChecker,
    BaseChecker_eq a b = true /\ BaseChecker_ne a b = false.
Proof.
  intros a b. unfold BaseChecker_ne, BaseChecker_eq.
  rewrite String.eqb_refl. split; reflexivity.
Qed.

(** Two checkers of different classes, names and categories are equal
    for [==]. *)
Example eq_Name_Triangle :
  BaseChecker_eq (BaseChecker_init NameChecker)
                 (BaseChecker_init TriangleChecker) = true.
Proof. reflexivity. Qed.

(** ** Enablement *)

Section Enablement.

Context {Scene : Type}.
Variable host : Host Scene.

Lemma check_disabled (path : option string) (w : CheckerWidget)
    (wd : World Scene) :
  isEnabled (checker w) = false ->
  check host path (w, wd) = (Ok tt, (w, wd)).
Proof.
  intros H. unfold check, bind, widget, gets. simpl. rewrite H. reflexivity.
Qed.

Lemma fix_disabled (w : CheckerWidget) (wd : World Scene) :
  isEnabled (checker w) = false ->
  fix_ host (w, wd) = (Ok tt, (w, wd)).
Proof.
  intros H. unfold fix_, bind, widget, gets. simpl. rewrite H. reflexivity.
Qed.

End Enablement.

(** C8, as amended.  The single-checker [check] and [fix] of a widget
    whose checker has [isEnabled] false return at once: neither
    [checkIt] nor [fixIt] is entered, and the widget, the scene and the
    trace are as before.  The manual path honours the flag exactly as
    the batch path does. *)
Theorem manual_run_honours_isEnabled :
  forall (Scene : Type) (host : Host Scene) (path : option string)
         (w : CheckerWidget) (wd : World Scene),
    isEnabled (checker w) = false ->
    check host path (w, wd) = (Ok tt, (w, wd)) /\
    fix_ host (w, wd) = (Ok tt, (w, wd)).
Proof.
  intros. split; [apply check_disabled | apply fix_disabled]; assumption.
Qed.

Lemma manual_run_honours_isEnabled_witness :
  isEnabled (checker name_widget) = false /\
  check Toy.quiet_host None (name_widget, selected_a)
    = (Ok tt, (name_widget, selected_a)) /\
  fix_ Toy.quiet_host (name_widget, selected_a)
    = (Ok tt, (name_widget, selected_a)).
Proof.
  split; [reflexivity |].
  apply (manual_run_honours_isEnabled Toy.ToyScene Toy.quiet_host None
           name_widget selected_a).
  reflexivity.
Defined.

(** C8 as stated fails: with [isEnabled] false, the manual check and the
    manual fix of the Name checker leave the trace without any entry into
    [checkIt] or [fixIt]. *)
Lemma manual_run_ignores_isEnabled_refuted :
  isEnabled (checker name_widget) = false /\
  checkIt_invoked "Name"
    (trace (snd (snd (check Toy.quiet_host None (name_widget, selected_a)))))
    = false /\
  fixIt_invoked "Name"
    (trace (snd (snd (fix_ Toy.quiet_host (name_widget, selected_a)))))
    = false.
Proof. repeat split; vm_compute; reflexivity. Qed.

(** An enabled checker, for contrast, is entered by the same call. *)
Example manual_check_enabled_runs :
  checkIt_invoked "Triangles"
    (trace (snd (snd (check Toy.quiet_host None
       (CheckerWidget_init (BaseChecker_init TriangleChecker) None,
        selected_a)))))
    = true.
Proof. vm_compute. reflexivity. Qed.

(** ** Category toggle *)

Section Toggle.

Context {Scene : Type}.

(** The widget after [setEnabled(state)]. *)
Lemma checkboxToggle_body_run (cat : string) (state : Z) (w : CheckerWidget)
    (wd : World Scene) :
  exists w',
    checkboxToggle_body Scene cat state (w, wd) = (Ok tt, (w', wd)) /\
    (category (checker w) <> cat -> w' = w) /\
    (category (checker w) = cat ->
       isEnabled (checker w') = Z.eqb state 2 /\
       cls (checker w') = cls (checker w) /\
       errors (checker w') = errors (checker w)).
Proof.
  unfold checkboxToggle_body, bind, widget, gets. simpl.
  destruct (String.eqb cat (category (checker w))) eqn:E.
  - apply String.eqb_eq in E.
    destruct (Z.eqb state 2); eexists; (split; [reflexivity |]);
      (split; [intros N; congruence | intros _; repeat split]).
  - apply String.eqb_neq in E.
    exists w. split; [reflexivity |]. split; [reflexivity | congruence].
Qed.

Lemma checkboxToggle_run (cat : string) (state : Z) (ws : list CheckerWidget)
    (wd : World Scene) :
  exists ws',
    checkboxToggle cat state ws wd = (Ok tt, (ws', wd)) /\
    Forall2 (fun w w' =>
      (category (checker w) <> cat -> w' = w) /\
      (category (checker w) = cat ->
         isEnabled (checker w') = Z.eqb state 2 /\
         cls (checker w') = cls (checker w) /\
         errors (checker w') = errors (checker w))) ws ws'.
Proof.
  unfold checkboxToggle.
  induction ws as [| w ws IH]; simpl.
  - exists []. split; [reflexivity | constructor].
  - destruct (checkboxToggle_body_run cat state w wd) as (w' & E & P).
    rewrite E. destruct IH as (ws' & E' & F). rewrite E'.
    exists (w' :: ws'). split; [reflexivity | constructor; assumption].
Qed.

End Toggle.

(** C9. Toggling the checkbox of one category leaves every widget whose
    checker has another category exactly as it was, [isEnabled]
    included; the checkers of the toggled category get [isEnabled] set to
    whether the new state is "checked". *)
Theorem category_toggle_frame :
  forall (Scene : Type) (cat : string) (state : Z) (ws : list CheckerWidget)
         (wd : World Scene) (i : nat) (w : CheckerWidget),
    nth_error ws i = Some w ->
    category (checker w) <> cat ->
    nth_error (fst (snd (checkboxToggle cat state ws wd))) i = Some w /\
    forall j v, nth_error ws j = Some v -> category (checker v) = cat ->
      exists v', nth_error (fst (snd (checkboxToggle cat state ws wd))) j
                   = Some v' /\
                 isEnabled (checker v') = Z.eqb state 2.
Proof.
  intros Scene cat state ws wd i w Hi Hc.
  destruct (checkboxToggle_run cat state ws wd) as (ws' & E & F).
  rewrite E. simpl. clear E. split.
  - revert i Hi. induction F as [| a a' l l' [P _] F IH]; intros i Hi.
    + destruct i; discriminate.
    + destruct i as [| i]; simpl in *.
      * injection Hi as ->. rewrite (P Hc). reflexivity.
      * apply IH; assumption.
  - clear i w Hi Hc. induction F as [| a a' l l' [_ P] F IH]; intros j v Hj Hv.
    + destruct j; discriminate.
    + destruct j as [| j]; simpl in *.
      * injection Hj as ->. exists a'. split; [reflexivity | apply P; exact Hv].
      * eapply IH; eassumption.
Qed.

Lemma category_toggle_frame_witness :
  nth_error widgets0 0
    = Some (CheckerWidget_init (BaseChecker_init TransformChecker) None) /\
  category (checker (CheckerWidget_init (BaseChecker_init TransformChecker) None))
    <> "UV" /\
  nth_error (fst (snd (checkboxToggle "UV" 0 widgets0 selected_a))) 0
    = Some (CheckerWidget_init (BaseChecker_init TransformChecker) None).
Proof.
  split; [vm_compute; reflexivity |].
  split; [vm_compute; discriminate |].
  refine (proj1 (category_toggle_frame Toy.ToyScene "UV" 0 widgets0 selected_a 0
           (CheckerWidget_init (BaseChecker_init TransformChecker) None) _ _)).
  - vm_compute. reflexivity.
  - vm_compute. discriminate.
Defined.

(** ** The split of a raw identifier *)

Section Split.

Variable sep : ascii.

Lemma split_unfold (s : string) :
  split sep s =
  before_first sep s ::
    (if Nat.eqb (count_char sep s) 0 then []
     else split sep (after_first sep s)).
Proof.
  induction s as [| a rest IH]; simpl.
  - reflexivity.
  - destruct (Ascii.eqb a sep); simpl.
    + reflexivity.
    + rewrite IH. reflexivity.
Qed.

Lemma split_length (s : string) :
  List.length (split sep s) = S (count_char sep s).
Proof.
  induction s as [| a rest IH]; simpl.
  - reflexivity.
  - destruct (Ascii.eqb a sep); simpl.
    + rewrite IH. reflexivity.
    + destruct (split sep rest); simpl in *; [discriminate | assumption].
Qed.

Lemma count_after_first (s : string) :
  count_char sep (after_first sep s) = pred (count_char sep s).
Proof.
  induction s as [| a rest IH]; simpl.
  - reflexivity.
  - destruct (Ascii.eqb a sep); simpl; [reflexivity | assumption].
Qed.

Lemma count_before_first (s : string) :
  count_char sep (before_first sep s) = 0.
Proof.
  induction s as [| a rest IH]; simpl.
  - reflexivity.
  - destruct (Ascii.eqb a sep) eqn:E; simpl; [reflexivity |].
    rewrite E. assumption.
Qed.

Lemma before_first_none (s : string) :
  count_char sep s = 0 -> before_first sep s = s.
Proof.
  induction s as [| a rest IH]; simpl; intros H.
  - reflexivity.
  - destruct (Ascii.eqb a sep); [discriminate |].
    simpl in H. rewrite (IH H). reflexivity.
Qed.

(** A string with a separator is its first field, the separator and the
    rest. *)
Lemma first_sep_decompose (s : string) :
  count_char sep s <> 0 ->
  s = (before_first sep s ++ String sep (after_first sep s))%string.
Proof.
  induction s as [| a rest IH]; simpl; intros H.
  - congruence.
  - destruct (Ascii.eqb a sep) eqn:E; simpl.
    + apply Ascii.eqb_eq in E. subst a. reflexivity.
    + simpl in H. rewrite <- (IH H). reflexivity.
Qed.

(** With exactly one separator the split has the two fields around it. *)
Lemma split_one (s : string) :
  count_char sep s = 1 ->
  split sep s = [before_first sep s; after_first sep s].
Proof.
  intros H. rewrite split_unfold, H. simpl.
  rewrite split_unfold, count_after_first, H. simpl.
  rewrite (before_first_none (after_first sep s)); [reflexivity |].
  rewrite count_after_first, H. reflexivity.
Qed.

End Split.

Lemma unpack2_length (l : list string) :
  List.length l <> 2 -> unpack2 l = Raise ValueError.
Proof.
  destruct l as [| a [| b [| c l]]]; simpl; intros H; congruence.
Qed.

(** The step on an identifier with one ['.']. *)
Lemma group_step_one_dot (d : errorsDict) (e : string) :
  count_char "." e = 1 ->
  group_step d e = Ok (dict_file (owner_of e) e d).
Proof.
  intros H. unfold group_step. rewrite (split_one "." e H). reflexivity.
Qed.

(** C3, as amended.  The aggregation step splits a raw identifier on
    every ['.'] and unpacks the fields into two targets.  For an
    identifier with exactly one ['.'] the owner is the prefix before it
    and the component is the suffix after it, the step does not raise and
    the identifier is filed under that owner.  For an identifier with two
    or more ['.'] (or none) the unpacking raises [ValueError]: the step
    never splits on the first ['.'] only. *)
Theorem split_rule :
  forall (d : errorsDict) (e : string),
    (count_char "." e = 1 ->
       unpack2 (split "." e) = Ok (before_first "." e, after_first "." e) /\
       e = (before_first "." e ++ "." ++ after_first "." e)%string /\
       group_step d e = Ok (dict_file (owner_of e) e d)) /\
    (count_char "." e <> 1 -> group_step d e = Raise ValueError).
Proof.
  intros d e. split; intros H.
  - assert (S1 := split_one "." e H).
    split; [rewrite S1; reflexivity |].
    split.
    + apply (first_sep_decompose "." e). rewrite H. discriminate.
    + apply group_step_one_dot, H.
  - unfold group_step. rewrite unpack2_length; [reflexivity |].
    rewrite split_length. intros E. apply H. injection E as E. exact E.
Qed.

Lemma split_rule_witness :
  count_char "." "|a|b.f[1]" = 1 /\
  unpack2 (split "." "|a|b.f[1]") = Ok ("|a|b", "f[1]") /\
  group_step [] "|a|b.f[1]" = Ok [("|a|b", ["|a|b.f[1]"])].
Proof.
  split; [reflexivity |].
  destruct (proj1 (split_rule [] "|a|b.f[1]") eq_refl) as (U & _ & G).
  split; [exact U | exact G].
Defined.

(** C3 as stated fails: an identifier whose component holds a second
    ['.'] is not split at the first one into owner [|a|b] and the rest;
    the step raises [ValueError]. *)
Lemma split_on_first_dot_refuted :
  1 <= count_char "." "|a|b.pnts[0].pntx" /\
  before_first "." "|a|b.pnts[0].pntx" = "|a|b" /\
  after_first "." "|a|b.pnts[0].pntx" = "pnts[0].pntx" /\
  group_step [] "|a|b.pnts[0].pntx" = Raise ValueError.
Proof. repeat split; vm_compute; try reflexivity. lia. Qed.

(** ** The aggregation *)

Section Dict.

Lemma dict_contains_get (k : string) (d : errorsDict) :
  dict_contains k d = match dict_get k d with Some _ => true | None => false end.
Proof.
  induction d as [| [a v] d IH]; simpl; [reflexivity |].
  destruct (String.eqb a k); simpl; [reflexivity | assumption].
Qed.

Lemma dict_contains_In (k : string) (d : errorsDict) :
  dict_contains k d = true <-> In k (map fst d).
Proof.
  induction d as [| [a v] d IH]; simpl.
  - split; [discriminate | tauto].
  - rewrite orb_true_iff, IH, String.eqb_eq. tauto.
Qed.

Lemma dict_get_append (k k' e : string) (d : errorsDict) :
  dict_get k' (dict_append k e d) =
  if String.eqb k k' then option_map (fun v => v ++ [e]) (dict_get k d)
  else dict_get k' d.
Proof.
  induction d as [| [a v] d IH]; simpl.
  - destruct (String.eqb k k'); reflexivity.
  - destruct (String.eqb a k) eqn:Eak; simpl.
    + apply String.eqb_eq in Eak. subst a.
      destruct (String.eqb k k'); reflexivity.
    + destruct (String.eqb a k') eqn:Eak'.
      * apply String.eqb_eq in Eak'. subst a.
        rewrite String.eqb_sym, Eak. reflexivity.
      * exact IH.
Qed.

Lemma dict_get_new (k k' e : string) (d : errorsDict) :
  dict_get k' (dict_new k e d) =
  match dict_get k' d with
  | Some v => Some v
  | None => if String.eqb k k' then Some [e] else None
  end.
Proof.
  unfold dict_new. induction d as [| [a v] d IH]; simpl.
  - reflexivity.
  - destruct (String.eqb a k'); [reflexivity | exact IH].
Qed.

Lemma dict_get_file (k k' e : string) (d : errorsDict) :
  dict_get k' (dict_file k e d) =
  if String.eqb k k'
  then Some (match dict_get k d with Some v => v ++ [e] | None => [e] end)
  else dict_get k' d.
Proof.
  unfold dict_file. rewrite dict_contains_get.
  destruct (dict_get k d) as [v |] eqn:G.
  - rewrite dict_get_append, G. reflexivity.
  - rewrite dict_get_new.
    destruct (String.eqb k k') eqn:E.
    + apply String.eqb_eq in E. subst k'. rewrite G. reflexivity.
    + destruct (dict_get k' d); reflexivity.
Qed.

Lemma keys_append (k e : string) (d : errorsDict) :
  map fst (dict_append k e d) = map fst d.
Proof.
  induction d as [| [a v] d IH]; simpl; [reflexivity |].
  destruct (String.eqb a k); simpl; [reflexivity | rewrite IH; reflexivity].
Qed.

Lemma keys_file_NoDup (k e : string) (d : errorsDict) :
  NoDup (map fst d) -> NoDup (map fst (dict_file k e d)).
Proof.
  intros N. unfold dict_file.
  destruct (dict_contains k d) eqn:C.
  - rewrite keys_append. exact N.
  - unfold dict_new. rewrite map_app. simpl.
    apply NoDup_app; [exact N | repeat constructor; simpl; tauto |].
    intros x Hx [<- | []].
    apply dict_contains_In in Hx. congruence.
Qed.


Lemma group_loop_filed (errs : list string) (d : errorsDict) :
  Forall oracle_format errs -> group_loop errs d = Ok (filed errs d).
Proof.
  intros F. revert d. induction F as [| e errs He F IH]; intros d; simpl.
  - reflexivity.
  - rewrite (group_step_one_dot d e He). apply IH.
Qed.

Lemma filed_NoDup (errs : list string) (d : errorsDict) :
  NoDup (map fst d) -> NoDup (map fst (filed errs d)).
Proof.
  revert d. induction errs as [| e errs IH]; intros d N; simpl.
  - exact N.
  - apply IH, keys_file_NoDup, N.
Qed.

(** What the loop has filed under a key: what was there, then the
    identifiers of that owner, in input order. *)
Lemma filed_get (errs : list string) (d : errorsDict) (k : string) :
  dict_get k (filed errs d) =
  match dict_get k d, filter (fun e => String.eqb (owner_of e) k) errs with
  | Some v, new => Some (v ++ new)
  | None, [] => None
  | None, new => Some new
  end.
Proof.
  revert d. induction errs as [| e errs IH]; intros d; simpl.
  - destruct (dict_get k d); [rewrite app_nil_r |]; reflexivity.
  - rewrite IH, dict_get_file.
    destruct (String.eqb (owner_of e) k) eqn:E.
    + apply String.eqb_eq in E. rewrite E.
      destruct (dict_get k d) as [v |].
      * rewrite <- app_assoc. reflexivity.
      * reflexivity.
    + reflexivity.
Qed.




End Dict.

(** ** Runs of [checkIt] *)

Section Runs.

Context {Scene : Type}.
Variable host : Host Scene.

Lemma checkIt_unfold (objs : list string) (settings : option Settings)
    (c : BaseChecker) (w : World Scene) :
  checkIt host objs settings (c, w) =
  checkIt_body host (cls c) objs settings (c, entered c objs w).
Proof. reflexivity. Qed.

Lemma for_each_append {X} (f : X -> Error) (l : list X) (c : BaseChecker)
    (w : World Scene) :
  for_each l (fun x => append_error Scene (f x)) (c, w) =
  (Ok tt, (with_errors c (errors c ++ map f l), w)).
Proof.
  revert c. induction l as [| x l IH]; intros c; simpl.
  - unfold ret, with_errors. rewrite app_nil_r. destruct c; reflexivity.
  - unfold bind, append_error, modify. simpl.
    rewrite IH. unfold with_errors. simpl. rewrite <- app_assoc. reflexivity.
Qed.

(** The run of an aggregating [checkIt] whose oracle answers [errs]. *)
Lemma checkIt_aggregated_run (oracle : cmd (list string)) (c : BaseChecker)
    (w : World Scene) (errs : list string) (sc' : Scene) :
  host _ oracle (scene w) = (Ok errs, sc') ->
  Forall oracle_format errs ->
  checkIt_aggregated host oracle (c, w) =
  (Ok (map finding_of (filed errs [])),
   (with_errors c (map finding_of (filed errs [])),
    {| scene := sc'; trace := trace w |})).
Proof.
  intros H F.
  unfold checkIt_aggregated, bind, set_errors, modify, call. simpl.
  rewrite H. unfold aggregate, bind, lift_result.
  rewrite (group_loop_filed errs [] F).
  change (fun kv : string * list string =>
            append_error Scene (Error_init (fst kv) (Some (snd kv))))
    with (fun kv => append_error Scene (finding_of kv)).
  rewrite for_each_append. reflexivity.
Qed.

(** An oracle failure after the reset of [self.errors]. *)
Lemma checkIt_aggregated_raises (oracle : cmd (list string)) (c : BaseChecker)
    (w : World Scene) (e : exn) (sc' : Scene) :
  host _ oracle (scene w) = (Raise e, sc') ->
  checkIt_aggregated host oracle (c, w) =
  (Raise e, (with_errors c [], {| scene := sc'; trace := trace w |})).
Proof.
  intros H. unfold checkIt_aggregated, bind, set_errors, modify, call. simpl.
  rewrite H. reflexivity.
Qed.

Lemma checkIt_whole_raises (oracle : cmd (list string)) (c : BaseChecker)
    (w : World Scene) (e : exn) (sc' : Scene) :
  host _ oracle (scene w) = (Raise e, sc') ->
  checkIt_whole Scene host oracle (c, w) =
  (Raise e, (with_errors c [], {| scene := sc'; trace := trace w |})).
Proof.
  intros H. unfold checkIt_whole, bind, set_errors, modify, call. simpl.
  rewrite H. reflexivity.
Qed.

(** The body of an oracle-backed class is one of the two shapes around
    its oracle call. *)
Lemma oracle_backed_body (k : CheckerClass) (objs : list string)
    (settings : option Settings) (mfa : float) (oracle : cmd (list string)) :
  oracle_of k objs mfa = Some oracle ->
  (k = ZeroAreaFaceChecker -> getSettings_maxFaceArea settings = Ok mfa) ->
  forall st,
    checkIt_body host k objs settings st =
    if aggregating k then checkIt_aggregated host oracle st
    else checkIt_whole Scene host oracle st.
Proof.
  intros O S st.
  destruct k; simpl in O; try discriminate; injection O as <-;
    try reflexivity.
  simpl. unfold checkIt_ZeroAreaFace, bind, lift_result.
  rewrite (S eq_refl). reflexivity.
Qed.

End Runs.



(** The example of the specification: three identifiers, two owners. *)
Example aggregation_example :
  fst (checkIt Toy.example_host ["|a"] None
         (BaseChecker_init TriangleChecker, selected_a))
  = Ok [ Error_init "|a|b" (Some ["|a|b.f[1]"; "|a|b.f[2]"]);
         Error_init "|a|c" (Some ["|a|c.f[0]"]) ].
Proof. vm_compute. reflexivity. Qed.


(** ** A failed check and the cached findings *)

(** C4, as amended.  [checkIt] empties the cached findings before it
    calls the oracle.  When the oracle call of an oracle-backed checker
    raises, [checkIt] raises the same exception and the cached list is
    left empty: the findings of the previous run are gone.  Only the
    settings lookup of ZeroAreaFaceChecker comes before the reset; when
    it fails, the checker is left as it was.  For every checker whose
    settings lookup succeeds, the outcome of [checkIt] is the same
    whatever list was cached before. *)
Theorem failed_check_cache :
  forall (Scene : Type) (host : Host Scene) (k : CheckerClass)
         (objs : list string) (settings : option Settings)
         (c : BaseChecker) (w : World Scene),
    cls c = k ->
    (forall mfa oracle e sc',
       oracle_of k objs mfa = Some oracle ->
       (k = ZeroAreaFaceChecker -> getSettings_maxFaceArea settings = Ok mfa) ->
       host _ oracle (scene w) = (Raise e, sc') ->
       checkIt host objs settings (c, w) =
       (Raise e, (with_errors c [],
                  {| scene := sc'; trace := trace (entered c objs w) |}))) /\
    (forall e,
       k = ZeroAreaFaceChecker ->
       getSettings_maxFaceArea settings = Raise e ->
       checkIt host objs settings (c, w) = (Raise e, (c, entered c objs w))) /\
    (forall mfa previous,
       (k = ZeroAreaFaceChecker -> getSettings_maxFaceArea settings = Ok mfa) ->
       checkIt host objs settings (with_errors c previous, w) =
       checkIt host objs settings (with_errors c [], w)).
Proof.
  intros Scene host k objs settings c w Ek. split; [| split].
  - intros mfa oracle e sc' O S H.
    rewrite checkIt_unfold, Ek.
    rewrite (oracle_backed_body host k objs settings mfa oracle O S).
    destruct (aggregating k).
    + apply checkIt_aggregated_raises. exact H.
    + apply checkIt_whole_raises. exact H.
  - intros e -> S. rewrite checkIt_unfold, Ek. simpl.
    unfold checkIt_ZeroAreaFace, bind, lift_result. rewrite S. reflexivity.
  - intros mfa previous S. rewrite !checkIt_unfold. simpl. rewrite Ek.
    destruct k; try reflexivity.
    simpl. unfold checkIt_ZeroAreaFace, bind, lift_result.
    rewrite (S eq_refl). reflexivity.
Qed.

Lemma failed_check_cache_witness :
  fst (Toy.failing_oracle_host _ (checkMesh ["|a"] 0 None) (scene selected_a))
    = Raise RuntimeError /\
  checkIt Toy.failing_oracle_host ["|a"] None (triangle_with_finding, selected_a)
  = (Raise RuntimeError,
     (with_errors triangle_with_finding [],
      {| scene := scene selected_a;
         trace := trace (entered triangle_with_finding ["|a"] selected_a) |})).
Proof.
  split; [reflexivity |].
  refine (proj1 (failed_check_cache Toy.ToyScene Toy.failing_oracle_host
                   TriangleChecker ["|a"] None triangle_with_finding
                   selected_a eq_refl)
            0%float (checkMesh ["|a"] 0 None) RuntimeError (scene selected_a)
            _ _ _).
  - reflexivity.
  - discriminate.
  - reflexivity.
Defined.

(** C4 as stated fails: the Triangles checker has a finding cached; the
    oracle call raises; the cached list is then empty, not the previous
    one. *)
Lemma cache_kept_on_failure_refuted :
  errors triangle_with_finding = [finding_of ("|a|b", ["|a|b.f[1]"])] /\
  fst (checkIt Toy.failing_oracle_host ["|a"] None
         (triangle_with_finding, selected_a)) = Raise RuntimeError /\
  errors (fst (snd (checkIt Toy.failing_oracle_host ["|a"] None
                      (triangle_with_finding, selected_a)))) = [] /\
  errors (fst (snd (checkIt Toy.failing_oracle_host ["|a"] None
                      (triangle_with_finding, selected_a))))
    <> errors triangle_with_finding.
Proof. repeat split; vm_compute; try reflexivity. discriminate. Qed.

(** ** An empty list of objects *)

Section EmptyObjects.

Context {Scene : Type}.
Variable host : Host Scene.
Hypothesis quiet : quiet_on_empty host.

Ltac answer_empty :=
  destruct quiet as (Qm & Qu & Ql);
  match goal with
  | |- context [host _ (checkMesh [] ?n ?m) ?s] =>
      destruct (Qm s n m) as (sc' & E); rewrite E
  | |- context [host _ (checkUV [] ?n) ?s] =>
      destruct (Qu s n) as (sc' & E); rewrite E
  | |- context [host _ (listRelatives [] ?fl) ?s] =>
      destruct (Ql s fl) as (r & sc' & E & R); rewrite E; simpl; rewrite R
  end.

Lemma checkIt_body_empty (k : CheckerClass) (settings : option Settings)
    (c : BaseChecker) (w : World Scene) :
  empty_safe k = true ->
  (k = ZeroAreaFaceChecker ->
   exists mfa, getSettings_maxFaceArea settings = Ok mfa) ->
  exists w', checkIt_body host k [] settings (c, w)
             = (Ok [], (with_errors c [], w')).
Proof.
  intros Sf St.
  destruct k; try discriminate Sf; simpl;
    try (destruct (St eq_refl) as (mfa & Em);
         unfold checkIt_ZeroAreaFace, bind at 1, lift_result; rewrite Em);
    unfold checkIt_aggregated, checkIt_whole, aggregate,
      checkIt_Name, checkIt_ShapeName, checkIt_History, checkIt_Transform,
      checkIt_LockedTransform, checkIt_SmoothPreview, checkIt_Keyframe,
      checkIt_DisplayLayer, checkIt_Map1, checkIt_NegativeUv,
      checkIt_UvOverlap, checkIt_SelectionSet, checkIt_ColorSet,
      bind, set_errors, return_errors, modify, gets, call, lift_result;
    simpl;
    try answer_empty;
    simpl; eexists; reflexivity.
Qed.

End EmptyObjects.

(** C5, as amended.  On a host that answers nothing for an empty list of
    objects, [checkIt] with an empty [objs] returns an empty list of
    findings, caches it and does not raise, for every checker of the
    registry other than UnusedLayerChecker, NonmanifoldVertexChecker and
    IntermediateObjectChecker (ZeroAreaFaceChecker being given settings
    with a numeric threshold).  UnusedLayerChecker does not read [objs]:
    it scans the display layers of the scene, so its answer for an empty
    [objs] is its answer for any [objs]. *)
Theorem empty_objects_safe :
  forall (Scene : Type) (host : Host Scene) (k : CheckerClass)
         (settings : option Settings) (c : BaseChecker) (w : World Scene),
    quiet_on_empty host ->
    cls c = k ->
    (k = ZeroAreaFaceChecker ->
     exists mfa, getSettings_maxFaceArea settings = Ok mfa) ->
    (empty_safe k = true ->
     exists w', checkIt host [] settings (c, w)
                = (Ok [], (with_errors c [], w'))) /\
    (k = UnusedLayerChecker ->
     forall objs st, checkIt_body host k objs settings st
                     = checkIt_body host k [] settings st).
Proof.
  intros Scene host k settings c w Q Ek St. split.
  - intros Sf. rewrite checkIt_unfold, Ek.
    apply checkIt_body_empty; assumption.
  - intros ->. reflexivity.
Qed.

Lemma quiet_host_quiet_on_empty : quiet_on_empty Toy.quiet_host.
Proof.
  repeat split; intros; repeat eexists; reflexivity.
Defined.

Lemma empty_objects_safe_witness :
  quiet_on_empty Toy.quiet_host /\
  empty_safe ShapeNameChecker = true /\
  exists w', checkIt Toy.quiet_host [] None
               (BaseChecker_init ShapeNameChecker, selected_a)
             = (Ok [], (with_errors (BaseChecker_init ShapeNameChecker) [], w')).
Proof.
  split; [exact quiet_host_quiet_on_empty |].
  split; [reflexivity |].
  refine (proj1 (empty_objects_safe Toy.ToyScene Toy.quiet_host
                   ShapeNameChecker None (BaseChecker_init ShapeNameChecker)
                   selected_a quiet_host_quiet_on_empty eq_refl _) eq_refl).
  discriminate.
Defined.

(** C5 as stated fails: in a scene with a display layer without members,
    UnusedLayerChecker, given an empty list of objects, reports that
    layer. *)
Lemma empty_objects_refuted :
  fst (checkIt Toy.quiet_host [] None
         (BaseChecker_init UnusedLayerChecker, one_unused_layer))
  = Ok [Error_init "layer1" (Some ["layer1"])] /\
  fst (checkIt Toy.quiet_host [] None
         (BaseChecker_init UnusedLayerChecker, one_unused_layer))
  <> Ok [].
Proof. split; vm_compute; [reflexivity | discriminate]. Qed.

(** The two checkers that iterate the answer of [listRelatives] without
    [or []] raise [TypeError] when nothing is found. *)
Example NonmanifoldVertex_empty_raises :
  fst (checkIt Toy.quiet_host [] None
         (BaseChecker_init NonmanifoldVertexChecker, selected_a))
  = Raise TypeError /\
  fst (checkIt Toy.quiet_host [] None
         (BaseChecker_init IntermediateObjectChecker, selected_a))
  = Raise TypeError.
Proof. split; vm_compute; reflexivity. Qed.

(** ** The batch check *)

Section Batch.

Context {Scene : Type}.

(** A loop over the widgets that fails at one widget: the widgets before
    it are as their iterations left them, the failing one as its
    iteration left it, the ones after it are untouched. *)
Lemma for_widgets_raises (body : M (CheckerWidget * World Scene) unit)
    (pre post : list CheckerWidget) (x : CheckerWidget) :
  forall (w : World Scene) pre' w1 e x' w2,
    for_widgets body pre w = (Ok tt, (pre', w1)) ->
    body (x, w1) = (Raise e, (x', w2)) ->
    for_widgets body (pre ++ x :: post) w
    = (Raise e, (pre' ++ x' :: post, w2)).
Proof.
  induction pre as [| a pre IH]; intros w pre' w1 e x' w2 Hpre Hx; simpl in *.
  - injection Hpre as <- <-. rewrite Hx. reflexivity.
  - destruct (body (a, w)) as [[u | e0] [a' wa]].
    + destruct (for_widgets body pre wa) as [r [ws'' w'']] eqn:R.
      injection Hpre as Hr Hp Hw. subst r pre' w''.
      rewrite (IH wa ws'' w1 e x' w2 R Hx). reflexivity.
    + discriminate.
Qed.

End Batch.

(** C1, as amended.  [checkAll] has no handler around the check of a
    widget.  If the check of checker [k] raises (in its [checkIt] or in
    the lookup of the target), the exception leaves [checkAll] at once:
    the checkers before [k] keep the findings of their new run, checker
    [k] is as its failed check left it, and no checker after [k] is
    invoked, so each of them keeps the cached findings it had before the
    batch and the trace ends with the failed check. *)
Theorem checkAll_stops_at_failure :
  forall (Scene : Type) (host : Host Scene) (app : ModelSanityChecker)
         (w : World Scene) (pre post : list CheckerWidget)
         (wk : CheckerWidget) pre' w1 e wk' w2,
    checkerWidgets app = pre ++ wk :: post ->
    for_widgets (checkAll_body Scene host (rootLE app)) pre w
      = (Ok tt, (pre', w1)) ->
    checkAll_body Scene host (rootLE app) (wk, w1) = (Raise e, (wk', w2)) ->
    checkAll host app w
    = (Raise e,
       ({| checkerWidgets := pre' ++ wk' :: post; rootLE := rootLE app |}, w2)).
Proof.
  intros Scene host app w pre post wk pre' w1 e wk' w2 Hws Hpre Hk.
  unfold checkAll. rewrite Hws.
  rewrite (for_widgets_raises _ pre post wk w pre' w1 e wk' w2 Hpre Hk).
  reflexivity.
Qed.

(** ** Fix, then check again *)

Section Fix.

Context {Scene : Type}.
Variable host : Host Scene.

Lemma keeps_ret {A} (a : A) : keeps_self (@ret (BaseChecker * World Scene) A a).
Proof. intros c w. reflexivity. Qed.

Lemma keeps_bind {A B} (m : M (BaseChecker * World Scene) A)
    (k : A -> M (BaseChecker * World Scene) B) :
  keeps_self m -> (forall a, keeps_self (k a)) -> keeps_self (bind m k).
Proof.
  intros Hm Hk c w. unfold bind. specialize (Hm c w).
  destruct (m (c, w)) as [[a | e] [c1 w1]]; simpl in *; subst c1.
  - apply Hk.
  - reflexivity.
Qed.

Lemma keeps_call {T} (q : cmd T) : keeps_self (call Scene host q).
Proof.
  intros c w. unfold call. simpl.
  destruct (host T q (scene w)). reflexivity.
Qed.

Lemma keeps_log (ev : Event) : keeps_self (@log Scene BaseChecker ev).
Proof. intros c w. reflexivity. Qed.

Lemma keeps_lift {A} (r : result A) :
  keeps_self (@lift_result (BaseChecker * World Scene) A r).
Proof. intros c w. reflexivity. Qed.

Lemma keeps_try (h : exn -> bool) (m : M (BaseChecker * World Scene) unit) :
  keeps_self m -> keeps_self (try_pass h m).
Proof.
  intros Hm c w. unfold try_pass. specialize (Hm c w).
  destruct (m (c, w)) as [[a | e] [c1 w1]]; simpl in *; subst c1.
  - reflexivity.
  - destruct (h e); reflexivity.
Qed.

Lemma keeps_when (b : bool) (m : M (BaseChecker * World Scene) unit) :
  keeps_self m -> keeps_self (when b m).
Proof. intros Hm. destruct b; [exact Hm | apply keeps_ret]. Qed.

Lemma keeps_for_each {X} (xs : list X)
    (body : X -> M (BaseChecker * World Scene) unit) :
  (forall x, keeps_self (body x)) -> keeps_self (for_each xs body).
Proof.
  intros Hb. induction xs as [| x xs IH]; simpl.
  - apply keeps_ret.
  - apply keeps_bind; [apply Hb | intros _; exact IH].
Qed.

Lemma keeps_for_each_opt {X} (o : option (list X))
    (body : X -> M (BaseChecker * World Scene) unit) :
  (forall x, keeps_self (body x)) -> keeps_self (for_each_opt o body).
Proof.
  intros Hb. destruct o; simpl; [apply keeps_for_each, Hb |].
  intros c w. reflexivity.
Qed.

Lemma keeps_self_read : keeps_self (self Scene).
Proof. intros c w. reflexivity. Qed.

Ltac keeps :=
  repeat first
    [ apply keeps_bind | apply keeps_for_each | apply keeps_for_each_opt
    | apply keeps_try | apply keeps_when | apply keeps_call
    | apply keeps_lift | apply keeps_ret | apply keeps_self_read
    | apply keeps_log | intro ].

(** [fixIt] reads the cached findings and never writes [self]. *)
Lemma fixIt_keeps_self : keeps_self (fixIt host).
Proof.
  unfold fixIt. apply keeps_bind; [apply keeps_self_read |].
  intros this. apply keeps_bind; [apply keeps_log |]. intros _.
  destruct (cls this); simpl;
    unfold fixIt_VertexPnts, fixIt_ShapeName, fixIt_History,
      fixIt_LockedTransform, fixIt_SmoothPreview, fixIt_Keyframe,
      fixIt_IntermediateObject, fixIt_DisplayLayer, fixIt_UnusedLayer,
      fixIt_Map1, fixIt_SelectionSet, fixIt_ColorSet;
    keeps.
Qed.

Lemma set_checker_same (w : CheckerWidget) : set_checker (checker w) w = w.
Proof. destruct w. reflexivity. Qed.

End Fix.

(** C7, as amended.  For an enabled checker, [fix] calls [fixIt] and,
    when that returns, calls [check()] without a path.  [fixIt] leaves
    the checker and its cached findings as they were, and the widget
    keeps no record of the target of an earlier check: the target of the
    re-check is the first element of the selection current at that
    moment, with its descendants, whatever target produced the cached
    findings.  With nothing selected the re-check is skipped and the
    widget, cached findings included, stays as it was. *)
Theorem fix_rechecks_selection :
  forall (Scene : Type) (host : Host Scene) (w : CheckerWidget)
         (wd : World Scene) c' wd1,
    isEnabled (checker w) = true ->
    fixIt host (checker w, wd) = (Ok tt, (c', wd1)) ->
    c' = checker w /\
    fix_ host (w, wd) = check host None (w, wd1) /\
    (forall p rest sc2,
       host _ ls_selection (scene wd1) = (Ok (p :: rest), sc2) ->
       fix_ host (w, wd)
       = check host (Some p) (w, {| scene := sc2; trace := trace wd1 |})) /\
    (forall sc2,
       host _ ls_selection (scene wd1) = (Ok [], sc2) ->
       fst (snd (fix_ host (w, wd))) = w).
Proof.
  intros Scene host w wd c' wd1 En Hf.
  assert (Ec : c' = checker w).
  { pose proof (fixIt_keeps_self host (checker w) wd) as K.
    rewrite Hf in K. exact K. }
  subst c'.
  assert (F : fix_ host (w, wd) = check host None (w, wd1)).
  { unfold fix_, bind at 1, widget, gets. simpl. rewrite En. simpl.
    unfold bind at 1, on_checker, zoom. simpl. rewrite Hf. simpl.
    rewrite set_checker_same. reflexivity. }
  split; [reflexivity |]. split; [exact F |]. split.
  - intros p rest sc2 Hs. rewrite F.
    unfold check, bind at 1, widget, gets. simpl. rewrite En. simpl.
    unfold bind at 1, call. simpl. rewrite Hs.
    unfold bind at 2. simpl. rewrite En. reflexivity.
  - intros sc2 Hs. rewrite F.
    unfold check, bind, widget, gets. simpl. rewrite En. simpl.
    unfold call. simpl. rewrite Hs. simpl.
    destruct (host unit (warning "Nothing is selected") sc2). reflexivity.
Qed.

Lemma fix_rechecks_selection_witness :
  isEnabled (checker triangle_widget) = true /\
  fixIt Toy.echo_host (checker triangle_widget, selected_b)
  = (Ok tt, (checker triangle_widget,
             {| scene := scene selected_b;
                trace := [FixIt_called "Triangles"] |})) /\
  fix_ Toy.echo_host (triangle_widget, selected_b)
  = check Toy.echo_host None
      (triangle_widget,
       {| scene := scene selected_b; trace := [FixIt_called "Triangles"] |}).
Proof.
  split; [reflexivity |]. split; [reflexivity |].
  refine (proj1 (proj2 (fix_rechecks_selection Toy.ToyScene Toy.echo_host
            triangle_widget selected_b (checker triangle_widget)
            {| scene := scene selected_b; trace := [FixIt_called "Triangles"] |}
            _ _))); reflexivity.
Defined.

(** C7 as stated fails: the findings cached by a check of [|a] (the root
    that [checkAll] passes) are followed, on [fix], by a re-check of
    [|b], the node selected at that moment; the findings shown after the
    fix are those of [|b]. *)
Lemma recheck_same_target_refuted :
  let st1 := snd (check Toy.echo_host (Some "|a") (triangle_widget, selected_b)) in
  let st2 := snd (fix_ Toy.echo_host st1) in
  trace (snd st1) = [CheckIt_called "Triangles" ["|a"]] /\
  map longName (errors (checker (fst st1))) = ["|a"] /\
  trace (snd st2) = [CheckIt_called "Triangles" ["|a"];
                     FixIt_called "Triangles";
                     CheckIt_called "Triangles" ["|b"]] /\
  map longName (errors (checker (fst st2))) = ["|b"] /\
  map longName (errorList (fst st2)) = ["|b"].
Proof. repeat split; vm_compute; reflexivity. Qed.

Lemma checkAll_stops_at_failure_witness :
  exists pre' w1 wk' w2,
    checkerWidgets app0
    = widgets_before_VertexPnts ++ VertexPnts_widget :: widgets_after_VertexPnts /\
    for_widgets (checkAll_body _ Toy.failing_oracle_host (rootLE app0))
      widgets_before_VertexPnts selected_a = (Ok tt, (pre', w1)) /\
    checkAll_body _ Toy.failing_oracle_host (rootLE app0) (VertexPnts_widget, w1)
    = (Raise RuntimeError, (wk', w2)) /\
    checkAll Toy.failing_oracle_host app0 selected_a
    = (Raise RuntimeError,
       ({| checkerWidgets := pre' ++ wk' :: widgets_after_VertexPnts;
           rootLE := rootLE app0 |}, w2)).
Proof.
  pose (o := for_widgets (checkAll_body _ Toy.failing_oracle_host (rootLE app0))
               widgets_before_VertexPnts selected_a).
  pose (o2 := checkAll_body _ Toy.failing_oracle_host (rootLE app0)
                (VertexPnts_widget, snd (snd o))).
  exists (fst (snd o)), (snd (snd o)), (fst (snd o2)), (snd (snd o2)).
  assert (H1 : checkerWidgets app0
               = widgets_before_VertexPnts ++ VertexPnts_widget
                   :: widgets_after_VertexPnts)
    by (vm_compute; reflexivity).
  assert (H2 : for_widgets (checkAll_body _ Toy.failing_oracle_host (rootLE app0))
                 widgets_before_VertexPnts selected_a
               = (Ok tt, (fst (snd o), snd (snd o))))
    by (vm_compute; reflexivity).
  assert (H3 : checkAll_body _ Toy.failing_oracle_host (rootLE app0)
                 (VertexPnts_widget, snd (snd o))
               = (Raise RuntimeError, (fst (snd o2), snd (snd o2))))
    by (vm_compute; reflexivity).
  split; [exact H1 |]. split; [exact H2 |]. split; [exact H3 |].
  exact (checkAll_stops_at_failure Toy.ToyScene Toy.failing_oracle_host app0
           selected_a widgets_before_VertexPnts widgets_after_VertexPnts
           VertexPnts_widget _ _ RuntimeError _ _ H1 H2 H3).
Defined.

(** C1 as stated fails: in the window as the application builds it, with
    an oracle that raises, the check of the Vertex Pnts checker raises
    inside [checkAll]; the ShapeName checker, enabled and later in the
    iteration, is never invoked. *)
Lemma batch_isolation_refuted :
  let out := checkAll Toy.failing_oracle_host app0 selected_a in
  fst out = Raise RuntimeError /\
  map (fun w => name (checker w)) (firstn 7 (checkerWidgets app0))
  = ["Transform"; "Locked Transform"; "Smooth Preview"; "Keyframe";
     "Vertex Pnts Attribute"; "Name"; "ShapeName"] /\
  fst (checkIt Toy.failing_oracle_host ["|a"] settings0
         (checker VertexPnts_widget, selected_a)) = Raise RuntimeError /\
  map (fun w => isEnabled (checker w))
      (filter (fun w => String.eqb (name (checker w)) "ShapeName")
              (checkerWidgets app0)) = [true] /\
  checkIt_invoked "Vertex Pnts Attribute" (trace (snd (snd out))) = true /\
  checkIt_invoked "ShapeName" (trace (snd (snd out))) = false.
Proof. repeat split; vm_compute; reflexivity. Qed.

(** With an oracle that answers, the same batch gets past the Vertex
    Pnts checker and reaches the ShapeName checker; the disabled Name
    checker is skipped.  In this scene without meshes the batch stops
    further on, at the Intermediate Object checker, which iterates the
    empty answer of [listRelatives]. *)
Example checkAll_quiet_reaches_ShapeName :
  let out := checkAll Toy.quiet_host app0 selected_a in
  checkIt_invoked "ShapeName" (trace (snd (snd out))) = true /\
  checkIt_invoked "Name" (trace (snd (snd out))) = false /\
  fst out = Raise TypeError /\
  checkIt_invoked "Intermediate Object" (trace (snd (snd out))) = true /\
  checkIt_invoked "Triangles" (trace (snd (snd out))) = false.
Proof. repeat split; vm_compute; reflexivity. Qed.

(** ** Findings whose owner is gone *)

(** C6 at its failing input.  The first cached finding names a node
    that no longer exists.  [fixIt] of ShapeNameChecker and of
    LockedTransformChecker raise at that finding and perform nothing for
    the finding after it; [fixIt] of VertexPntsChecker, which asks
    [objExists] first, skips it and resets the vertices of the next. *)
Theorem fixIt_stale_owner_aborts :
  fixIt Toy.maya_host (stale_findings ShapeNameChecker, stale_world)
  = (Raise ValueError,
     (stale_findings ShapeNameChecker,
      {| scene := scene stale_world; trace := [FixIt_called "ShapeName"] |})) /\
  fixIt Toy.maya_host (stale_findings LockedTransformChecker, stale_world)
  = (Raise RuntimeError,
     (stale_findings LockedTransformChecker,
      {| scene := scene stale_world;
         trace := [FixIt_called "Locked Transform"] |})) /\
  fst (fixIt Toy.maya_host (stale_findings VertexPntsChecker, stale_world))
  = Ok tt /\
  Toy.performed (scene (snd (snd
    (fixIt Toy.maya_host (stale_findings VertexPntsChecker, stale_world)))))
  = [Toy.VerticesReset "|grp2|ballShape1"].
Proof. repeat split; vm_compute; reflexivity. Qed.

(** With the second finding alone, ShapeNameChecker does rename the
    shape: the finding after the stale one was fixable. *)
Example fixIt_ShapeName_fresh :
  Toy.performed (scene (snd (snd
    (fixIt Toy.maya_host
       (with_errors (BaseChecker_init ShapeNameChecker)
                    [Error_init "|grp2|ballShape1" None],
        stale_world)))))
  = [Toy.Renamed "|grp2|ballShape1" "grp2Shape"].
Proof. vm_compute. reflexivity. Qed.

(** * Further properties of the code *)

(** ** Order of the findings of an aggregating checker *)

Section Order.

Lemma dict_contains_mem (k : string) (d : errorsDict) :
  dict_contains k d = mem k (map fst d).
Proof.
  induction d as [| [a v] d IH]; simpl; [reflexivity |].
  rewrite IH, (String.eqb_sym a k). reflexivity.
Qed.

Lemma keys_file (k e : string) (d : errorsDict) :
  map fst (dict_file k e d) =
  if mem k (map fst d) then map fst d else map fst d ++ [k].
Proof.
  unfold dict_file. rewrite dict_contains_mem.
  destruct (mem k (map fst d)).
  - apply keys_append.
  - unfold dict_new. rewrite map_app. reflexivity.
Qed.

Lemma filter_twice {A} (p q : A -> bool) (l : list A) :
  filter p (filter q l) = filter (fun x => q x && p x) l.
Proof.
  induction l as [| x l IH]; simpl; [reflexivity |].
  destruct (q x); simpl; [destruct (p x) |]; rewrite IH; reflexivity.
Qed.

Lemma mem_app (x : string) (l1 l2 : list string) :
  mem x (l1 ++ l2) = mem x l1 || mem x l2.
Proof. unfold mem. apply existsb_app. Qed.

(** The keys after the loop: the keys before it, then the new owners in
    order of first appearance. *)
Lemma filed_keys_order (errs : list string) (d : errorsDict) :
  map fst (filed errs d) =
  map fst d ++
  filter (fun o => negb (mem o (map fst d))) (distinct (map owner_of errs)).
Proof.
  revert d. induction errs as [| e errs IH]; intros d; simpl.
  - rewrite app_nil_r. reflexivity.
  - unfold filed in IH. rewrite IH, keys_file.
    destruct (mem (owner_of e) (map fst d)) eqn:Hm; simpl.
    + rewrite filter_twice. f_equal. apply filter_ext. intros x.
      destruct (String.eqb x (owner_of e)) eqn:Ex; simpl; [| reflexivity].
      apply String.eqb_eq in Ex. subst x. rewrite Hm. reflexivity.
    + rewrite <- app_assoc. simpl. f_equal. f_equal.
      rewrite filter_twice. apply filter_ext. intros x.
      rewrite mem_app. simpl. rewrite orb_false_r, negb_orb.
      apply andb_comm.
Qed.

(** An association list with distinct keys is its keys, each with what
    the lookup answers. *)
Lemma dict_as_lookup (d : errorsDict) :
  NoDup (map fst d) ->
  d = map (fun k => (k, match dict_get k d with Some v => v | None => [] end))
          (map fst d).
Proof.
  induction d as [| [a v] d IH]; simpl; intros N; [reflexivity |].
  inversion N as [| ? ? Na Nd]; subst.
  rewrite String.eqb_refl. f_equal.
  rewrite (IH Nd) at 1. apply map_ext_in. intros k Hk.
  destruct (String.eqb a k) eqn:E; [| reflexivity].
  apply String.eqb_eq in E. subst k. contradiction.
Qed.

Lemma filter_all {A} (l : list A) : filter (fun _ => true) l = l.
Proof. induction l as [| x l IH]; simpl; [| rewrite IH]; reflexivity. Qed.

Lemma filed_grouped (errs : list string) : filed errs [] = grouped errs.
Proof.
  rewrite (dict_as_lookup (filed errs [])) by (apply filed_NoDup; constructor).
  rewrite filed_keys_order. simpl. rewrite filter_all.
  unfold grouped. apply map_ext. intros o.
  rewrite filed_get. simpl.
  destruct (filter (fun e => String.eqb (owner_of e) o) errs); reflexivity.
Qed.

(** The loop raises as soon as one identifier does not split in two. *)
Lemma group_loop_malformed (errs : list string) (d : errorsDict) :
  Exists (fun e => count_char "." e <> 1) errs ->
  group_loop errs d = Raise ValueError.
Proof.
  intros Ex. revert d. induction Ex as [e errs He | e errs Ex IH]; intros d; simpl.
  - unfold group_step. rewrite unpack2_length; [reflexivity |].
    rewrite split_length. intros E. apply He. injection E as E. exact E.
  - destruct (Nat.eq_dec (count_char "." e) 1) as [E1 | N1].
    + rewrite (group_step_one_dot d e E1). apply IH.
    + unfold group_step. rewrite unpack2_length; [reflexivity |].
      rewrite split_length. intros E. apply N1. injection E as E. exact E.
Qed.

End Order.

(** X1. The findings of an aggregating checker come in the order in
    which their owners first appear in the oracle's answer, and the
    components of each finding are the identifiers of that owner in the
    order of the answer, repetitions included. *)
Theorem aggregation_order :
  forall (Scene : Type) (host : Host Scene) (k : CheckerClass)
         (objs : list string) (settings : option Settings) (mfa : float)
         (oracle : cmd (list string)) (c : BaseChecker) (w : World Scene)
         (errs : list string) (sc' : Scene),
    aggregating k = true ->
    cls c = k ->
    (k = ZeroAreaFaceChecker -> getSettings_maxFaceArea settings = Ok mfa) ->
    oracle_of k objs mfa = Some oracle ->
    host _ oracle (scene w) = (Ok errs, sc') ->
    Forall oracle_format errs ->
    fst (checkIt host objs settings (c, w))
    = Ok (map finding_of (grouped errs)).
Proof.
  intros Scene host k objs settings mfa oracle c w errs sc' A Ek S O H F.
  rewrite checkIt_unfold, Ek.
  rewrite (oracle_backed_body host k objs settings mfa oracle O S), A.
  rewrite (checkIt_aggregated_run host oracle c (entered c objs w) errs sc' H F).
  simpl. rewrite filed_grouped. reflexivity.
Qed.

Lemma aggregation_order_witness :
  Forall oracle_format shuffled_ids /\
  fst (checkIt shuffled_host ["|a"] None
         (BaseChecker_init NgonChecker, selected_a))
  = Ok [ Error_init "|a|c" (Some ["|a|c.f[0]"; "|a|c.f[0]"]);
         Error_init "|a|b" (Some ["|a|b.f[2]"; "|a|b.f[1]"]) ].
Proof.
  split; [repeat constructor |].
  apply (aggregation_order Toy.ToyScene shuffled_host NgonChecker ["|a"] None
           0%float (checkMesh ["|a"] 1 None) (BaseChecker_init NgonChecker)
           selected_a shuffled_ids (scene selected_a)).
  - reflexivity.
  - reflexivity.
  - discriminate.
  - reflexivity.
  - reflexivity.
  - repeat constructor.
Defined.

(** X2. One identifier in the oracle's answer that does not have exactly
    one ['.'] makes the check of an aggregating checker raise
    [ValueError]; no finding is emitted, not even for the well-formed
    identifiers before it, and the cached list is left empty. *)
Theorem aggregation_rejects_malformed :
  forall (Scene : Type) (host : Host Scene) (k : CheckerClass)
         (objs : list string) (settings : option Settings) (mfa : float)
         (oracle : cmd (list string)) (c : BaseChecker) (w : World Scene)
         (errs : list string) (sc' : Scene),
    aggregating k = true ->
    cls c = k ->
    (k = ZeroAreaFaceChecker -> getSettings_maxFaceArea settings = Ok mfa) ->
    oracle_of k objs mfa = Some oracle ->
    host _ oracle (scene w) = (Ok errs, sc') ->
    Exists (fun e => count_char "." e <> 1) errs ->
    checkIt host objs settings (c, w)
    = (Raise ValueError,
       (with_errors c [],
        {| scene := sc'; trace := trace (entered c objs w) |})).
Proof.
  intros Scene host k objs settings mfa oracle c w errs sc' A Ek S O H Ex.
  rewrite checkIt_unfold, Ek.
  rewrite (oracle_backed_body host k objs settings mfa oracle O S), A.
  unfold checkIt_aggregated, bind, set_errors, modify, call. simpl.
  rewrite H. unfold aggregate, bind, lift_result.
  rewrite (group_loop_malformed errs [] Ex). reflexivity.
Qed.

Lemma aggregation_rejects_malformed_witness :
  Exists (fun e => count_char "." e <> 1) malformed_ids /\
  checkIt malformed_host ["|a"] None (triangle_with_finding, selected_a)
  = (Raise ValueError,
     (with_errors triangle_with_finding [],
      {| scene := scene selected_a;
         trace := trace (entered triangle_with_finding ["|a"] selected_a) |})).
Proof.
  assert (Ex : Exists (fun e => count_char "." e <> 1) malformed_ids).
  { apply Exists_cons_tl, Exists_cons_hd. vm_compute. discriminate. }
  split; [exact Ex |].
  apply (aggregation_rejects_malformed Toy.ToyScene malformed_host
           TriangleChecker ["|a"] None 0%float (checkMesh ["|a"] 0 None)
           triangle_with_finding selected_a malformed_ids (scene selected_a)).
  - reflexivity.
  - reflexivity.
  - discriminate.
  - reflexivity.
  - reflexivity.
  - exact Ex.
Defined.

(** X3. The four checkers whose oracle answers whole objects
    (VertexPnts, EmptyGeometry, InstanceShape, Connection) emit one
    finding per string of the answer, in the same order, repetitions
    kept, each with the string as owner and no components; whatever the
    strings contain, the check does not raise. *)
Theorem whole_object_findings :
  forall (Scene : Type) (host : Host Scene) (k : CheckerClass)
         (objs : list string) (settings : option Settings)
         (oracle : cmd (list string)) (c : BaseChecker) (w : World Scene)
         (errs : list string) (sc' : Scene),
    whole_object k = true ->
    cls c = k ->
    oracle_of k objs 0%float = Some oracle ->
    host _ oracle (scene w) = (Ok errs, sc') ->
    checkIt host objs settings (c, w)
    = (Ok (map (fun e => Error_init e None) errs),
       (with_errors c (map (fun e => Error_init e None) errs),
        {| scene := sc'; trace := trace (entered c objs w) |})).
Proof.
  intros Scene host k objs settings oracle c w errs sc' Wk Ek O H.
  rewrite checkIt_unfold, Ek.
  rewrite (oracle_backed_body host k objs settings 0%float oracle O)
    by (intros ->; discriminate Wk).
  replace (aggregating k) with false by (destruct k; try discriminate Wk; reflexivity).
  unfold checkIt_whole, bind at 1, set_errors, modify. simpl.
  unfold bind at 1, call. simpl. rewrite H.
  unfold bind. rewrite for_each_append. reflexivity.
Qed.

Lemma whole_object_findings_witness :
  whole_object ConnectionChecker = true /\
  checkIt malformed_host ["|a"] None
    (BaseChecker_init ConnectionChecker, selected_a)
  = (Ok (map (fun e => Error_init e None) malformed_ids),
     (with_errors (BaseChecker_init ConnectionChecker)
        (map (fun e => Error_init e None) malformed_ids),
      {| scene := scene selected_a;
         trace := trace (entered (BaseChecker_init ConnectionChecker) ["|a"]
                           selected_a) |})).
Proof.
  split; [reflexivity |].
  apply (whole_object_findings Toy.ToyScene malformed_host ConnectionChecker
           ["|a"] None (checkMesh ["|a"] 13 None)
           (BaseChecker_init ConnectionChecker) selected_a malformed_ids
           (scene selected_a)); reflexivity.
Defined.

(** ** What a computation leaves unchanged *)

Section Unchanged.

Context {St X : Type}.
Variable view : St -> X.

Lemma unchanged_ret {A} (a : A) : unchanged view (@ret St A a).
Proof. intros s. reflexivity. Qed.

Lemma unchanged_raise {A} (e : exn) : unchanged view (@raise St A e).
Proof. intros s. reflexivity. Qed.

Lemma unchanged_lift {A} (r : result A) : unchanged view (@lift_result St A r).
Proof. intros s. reflexivity. Qed.

Lemma unchanged_gets {A} (f : St -> A) : unchanged view (gets f).
Proof. intros s. reflexivity. Qed.

Lemma unchanged_modify (f : St -> St) :
  (forall s, view (f s) = view s) -> unchanged view (modify f).
Proof. intros H s. apply H. Qed.

Lemma unchanged_bind {A B} (m : M St A) (k : A -> M St B) :
  unchanged view m -> (forall a, unchanged view (k a)) ->
  unchanged view (bind m k).
Proof.
  intros Hm Hk s. unfold bind. specialize (Hm s).
  destruct (m s) as [[a | e] s1]; simpl in *.
  - rewrite Hk. exact Hm.
  - exact Hm.
Qed.

Lemma unchanged_try (h : exn -> bool) (m : M St unit) :
  unchanged view m -> unchanged view (try_pass h m).
Proof.
  intros Hm s. unfold try_pass. specialize (Hm s).
  destruct (m s) as [[a | e] s1]; simpl in *; [exact Hm |].
  destruct (h e); exact Hm.
Qed.

Lemma unchanged_when (b : bool) (m : M St unit) :
  unchanged view m -> unchanged view (when b m).
Proof. intros Hm. destruct b; [exact Hm | apply unchanged_ret]. Qed.

Lemma unchanged_for_each {Y} (xs : list Y) (body : Y -> M St unit) :
  (forall x, unchanged view (body x)) -> unchanged view (for_each xs body).
Proof.
  intros Hb. induction xs as [| x xs IH]; simpl.
  - apply unchanged_ret.
  - apply unchanged_bind; [apply Hb | intros _; exact IH].
Qed.

Lemma unchanged_for_each_opt {Y} (o : option (list Y)) (body : Y -> M St unit) :
  (forall x, unchanged view (body x)) -> unchanged view (for_each_opt o body).
Proof.
  intros Hb. destruct o; simpl;
    [apply unchanged_for_each, Hb | apply unchanged_raise].
Qed.

Lemma unchanged_for_break {Y} (xs : list Y) (body : Y -> M St bool) :
  (forall x, unchanged view (body x)) -> unchanged view (for_break xs body).
Proof.
  intros Hb. induction xs as [| x xs IH]; simpl.
  - apply unchanged_ret.
  - apply unchanged_bind; [apply Hb |].
    intros [|]; [apply unchanged_ret | exact IH].
Qed.

Lemma unchanged_filter_m {Y} (p : Y -> M St bool) (xs : list Y) :
  (forall x, unchanged view (p x)) -> unchanged view (filter_m p xs).
Proof.
  intros Hp. induction xs as [| x xs IH]; simpl.
  - apply unchanged_ret.
  - apply unchanged_bind; [apply Hp | intros b].
    apply unchanged_bind; [exact IH | intros r; apply unchanged_ret].
Qed.

Lemma unchanged_concat_m {Y Z} (f : Y -> M St (list Z)) (xs : list Y) :
  (forall x, unchanged view (f x)) -> unchanged view (concat_m f xs).
Proof.
  intros Hf. induction xs as [| x xs IH]; simpl.
  - apply unchanged_ret.
  - apply unchanged_bind; [apply Hf | intros l].
    apply unchanged_bind; [exact IH | intros r; apply unchanged_ret].
Qed.

End Unchanged.

Ltac unchanged_step :=
  first
    [ apply unchanged_bind | apply unchanged_for_each
    | apply unchanged_for_each_opt | apply unchanged_for_break
    | apply unchanged_filter_m | apply unchanged_concat_m
    | apply unchanged_try | apply unchanged_when
    | apply unchanged_ret | apply unchanged_raise | apply unchanged_lift
    | apply unchanged_gets ].

(** ** What [checkIt] keeps and what it answers *)

Section CheckItKeeps.

Context {Scene : Type}.
Variable host : Host Scene.

Lemma identity_call {T} (q : cmd T) :
  unchanged (@checker_identity Scene) (call Scene host q).
Proof.
  intros [c w]. unfold call. simpl. destruct (host T q (scene w)). reflexivity.
Qed.

Lemma identity_log (ev : Event) :
  unchanged (@checker_identity Scene) (@log Scene BaseChecker ev).
Proof. intros [c w]. reflexivity. Qed.

Lemma identity_set_errors (l : list Error) :
  unchanged (@checker_identity Scene) (set_errors Scene l).
Proof. intros [c w]. reflexivity. Qed.

Lemma identity_append_error (e : Error) :
  unchanged (@checker_identity Scene) (append_error Scene e).
Proof. intros [c w]. reflexivity. Qed.

Ltac identity :=
  repeat first
    [ match goal with
      | |- unchanged _ (if ?b then _ else _) => destruct b
      | |- unchanged _ (match ?x with _ => _ end) => destruct x
      | |- forall _, _ => intro
      end
    | unchanged_step | apply identity_call | apply identity_log
    | apply identity_set_errors | apply identity_append_error ].

Lemma identity_checkIt_body (k : CheckerClass) (objs : list string)
    (settings : option Settings) :
  unchanged (@checker_identity Scene) (checkIt_body host k objs settings).
Proof.
  destruct k; simpl;
    unfold checkIt_aggregated, checkIt_whole, checkIt_ZeroAreaFace, aggregate,
      checkIt_Name, checkIt_ShapeName, checkIt_History, checkIt_Transform,
      checkIt_LockedTransform, checkIt_SmoothPreview, checkIt_Keyframe,
      checkIt_NonmanifoldVertex, checkIt_IntermediateObject,
      checkIt_DisplayLayer, checkIt_UnusedLayer, checkIt_Map1,
      checkIt_NegativeUv, checkIt_UvOverlap, checkIt_SelectionSet,
      checkIt_ColorSet, getSets, return_errors, self;
    identity.
Qed.

Lemma identity_checkIt (objs : list string) (settings : option Settings) :
  unchanged (@checker_identity Scene) (checkIt host objs settings).
Proof.
  unfold checkIt, self.
  apply unchanged_bind; [apply unchanged_gets | intros this].
  apply unchanged_bind; [apply identity_log | intros _].
  apply identity_checkIt_body.
Qed.

Lemma returns_cache_bind {A} (m : M (BaseChecker * World Scene) A)
    (k : A -> M (BaseChecker * World Scene) (list Error)) :
  (forall a, returns_cache (k a)) -> returns_cache (bind m k).
Proof.
  intros Hk st fs st' H. unfold bind in H.
  destruct (m st) as [[a | e] s1]; [| discriminate].
  exact (Hk a s1 fs st' H).
Qed.

Lemma returns_cache_return : returns_cache (return_errors Scene).
Proof.
  intros st fs st' H. unfold return_errors, gets in H.
  injection H as <- <-. reflexivity.
Qed.

Lemma returns_cache_checkIt_body (k : CheckerClass) (objs : list string)
    (settings : option Settings) :
  returns_cache (checkIt_body host k objs settings).
Proof.
  destruct k; simpl;
    unfold checkIt_aggregated, checkIt_whole, checkIt_ZeroAreaFace,
      checkIt_Name, checkIt_ShapeName, checkIt_History, checkIt_Transform,
      checkIt_LockedTransform, checkIt_SmoothPreview, checkIt_Keyframe,
      checkIt_NonmanifoldVertex, checkIt_IntermediateObject,
      checkIt_DisplayLayer, checkIt_UnusedLayer, checkIt_Map1,
      checkIt_NegativeUv, checkIt_UvOverlap, checkIt_SelectionSet,
      checkIt_ColorSet;
    repeat (apply returns_cache_bind; intro);
    apply returns_cache_return.
Qed.

Lemma returns_cache_checkIt (objs : list string) (settings : option Settings) :
  returns_cache (checkIt host objs settings).
Proof.
  unfold checkIt.
  apply returns_cache_bind; intros this.
  apply returns_cache_bind; intros _.
  apply returns_cache_checkIt_body.
Qed.

End CheckItKeeps.

(** X4. Whenever [checkIt] of any checker returns, the list it returns
    is the list it has cached in [self.errors]. *)
Theorem checkIt_returns_cache :
  forall (Scene : Type) (host : Host Scene) (objs : list string)
         (settings : option Settings) (c : BaseChecker) (w : World Scene)
         (fs : list Error) (c' : BaseChecker) (w' : World Scene),
    checkIt host objs settings (c, w) = (Ok fs, (c', w')) ->
    errors c' = fs.
Proof.
  intros Scene host objs settings c w fs c' w' H.
  exact (returns_cache_checkIt host objs settings (c, w) fs (c', w') H).
Qed.

Lemma checkIt_returns_cache_witness :
  checkIt Toy.example_host ["|a"] None (triangle_with_finding, selected_a)
  = (Ok (map finding_of (grouped Toy.example_ids)),
     (with_errors triangle_with_finding (map finding_of (grouped Toy.example_ids)),
      entered triangle_with_finding ["|a"] selected_a)) /\
  errors (with_errors triangle_with_finding
            (map finding_of (grouped Toy.example_ids)))
  = map finding_of (grouped Toy.example_ids).
Proof.
  assert (H : checkIt Toy.example_host ["|a"] None
                (triangle_with_finding, selected_a)
              = (Ok (map finding_of (grouped Toy.example_ids)),
                 (with_errors triangle_with_finding
                    (map finding_of (grouped Toy.example_ids)),
                  entered triangle_with_finding ["|a"] selected_a)))
    by (vm_compute; reflexivity).
  split; [exact H |].
  exact (checkIt_returns_cache _ _ _ _ _ _ _ _ _ H).
Defined.

(** X5. A run of [checkIt], whether it returns or raises, changes
    nothing of a checker but its cached findings: the class and the
    [isEnabled] flag are as before. *)
Theorem checkIt_keeps_identity :
  forall (Scene : Type) (host : Host Scene) (objs : list string)
         (settings : option Settings) (c : BaseChecker) (w : World Scene),
    cls (fst (snd (checkIt host objs settings (c, w)))) = cls c /\
    isEnabled (fst (snd (checkIt host objs settings (c, w)))) = isEnabled c.
Proof.
  intros Scene host objs settings c w.
  pose proof (identity_checkIt host objs settings (c, w)) as H.
  unfold checker_identity in H. simpl in H.
  injection H as H1 H2. split; assumption.
Qed.

(** ** The widgets under a check, a fix and the batches *)

Section WidgetKeeps.

Context {Scene : Type}.
Variable host : Host Scene.

Lemma wview_call {T} (q : cmd T) : unchanged (@wview Scene) (call Scene host q).
Proof.
  intros [x w]. unfold call. simpl. destruct (host T q (scene w)). reflexivity.
Qed.

Lemma wview_on_checker {A} (m : M (BaseChecker * World Scene) A) :
  unchanged (@checker_identity Scene) m -> unchanged (@wview Scene) (on_checker Scene m).
Proof.
  intros Hm [x w]. unfold on_checker, zoom. simpl.
  specialize (Hm (checker x, w)).
  destruct (m (checker x, w)) as [r [c' w']]. simpl in *.
  unfold checker_identity in Hm. simpl in Hm. injection Hm as H1 H2.
  unfold wview, widget_identity. simpl. rewrite H1, H2. reflexivity.
Qed.

Lemma wview_set_errorList (l : list Error) :
  unchanged (@wview Scene) (set_errorList Scene l).
Proof. intros [x w]. reflexivity. Qed.

Lemma wview_addItem (e : Error) : unchanged (@wview Scene) (addItem Scene e).
Proof. intros [x w]. reflexivity. Qed.

Lemma wview_setStatusIcon (icon : string) :
  unchanged (@wview Scene) (setStatusIcon Scene icon).
Proof. intros [x w]. reflexivity. Qed.

Ltac wkeeps :=
  repeat first
    [ match goal with
      | |- unchanged _ (if ?b then _ else _) => destruct b
      | |- unchanged _ (match ?x with _ => _ end) => destruct x
      | |- forall _, _ => intro
      end
    | unchanged_step | apply wview_call | apply wview_set_errorList
    | apply wview_addItem | apply wview_setStatusIcon ].

Lemma wview_doCheck (objs : list string) : unchanged (@wview Scene) (doCheck host objs).
Proof.
  unfold doCheck, widget.
  apply unchanged_bind; [apply wview_set_errorList | intros _].
  apply unchanged_bind; [apply unchanged_gets | intros this].
  apply unchanged_bind;
    [apply wview_on_checker, identity_checkIt | intros errs].
  wkeeps.
Qed.

Lemma wview_check (path : option string) : unchanged (@wview Scene) (check host path).
Proof.
  unfold check, widget.
  apply unchanged_bind; [apply unchanged_gets | intros this].
  destruct (negb (isEnabled (checker this))); [apply unchanged_ret |].
  destruct path as [p |].
  - apply unchanged_bind; [apply wview_call | intros r]. apply wview_doCheck.
  - apply unchanged_bind; [apply wview_call | intros sel].
    destruct sel as [| p sel]; [apply wview_call |].
    apply unchanged_bind; [apply wview_call | intros r]. apply wview_doCheck.
Qed.

Lemma identity_fixIt : unchanged (@checker_identity Scene) (fixIt host).
Proof.
  intros [c w]. pose proof (fixIt_keeps_self host c w) as K.
  unfold checker_identity. simpl. rewrite K. reflexivity.
Qed.

Lemma wview_fix : unchanged (@wview Scene) (fix_ host).
Proof.
  unfold fix_, widget.
  apply unchanged_bind; [apply unchanged_gets | intros this].
  destruct (negb (isEnabled (checker this))); [apply unchanged_ret |].
  apply unchanged_bind; [apply wview_on_checker, identity_fixIt | intros _].
  apply wview_check.
Qed.

Lemma wview_checkAll_body (node : string) :
  unchanged (@wview Scene) (checkAll_body Scene host node).
Proof.
  unfold checkAll_body, widget.
  apply unchanged_bind; [apply unchanged_gets | intros this].
  destruct (isEnabled (checker this)); [| apply unchanged_ret].
  destruct (String.eqb node ""); apply wview_check.
Qed.

(** Every widget after a loop over the widgets is the widget before it
    or what one run of the body made of it. *)
Lemma for_widgets_each (body : M (CheckerWidget * World Scene) unit)
    (ws : list CheckerWidget) (w : World Scene) :
  Forall2 (fun x x' => x' = x \/ exists wd, x' = fst (snd (body (x, wd))))
          ws (fst (snd (for_widgets body ws w))).
Proof.
  revert w. induction ws as [| x ws IH]; intros w; simpl.
  - constructor.
  - destruct (body (x, w)) as [[u | e] [x' w']] eqn:B.
    + specialize (IH w').
      destruct (for_widgets body ws w') as [r [ws'' w'']]. simpl in *.
      constructor; [| exact IH].
      right. exists w. rewrite B. reflexivity.
    + simpl. constructor.
      * right. exists w. rewrite B. reflexivity.
      * clear. induction ws; constructor; [left; reflexivity | assumption].
Qed.

Lemma for_widgets_identity (body : M (CheckerWidget * World Scene) unit)
    (ws : list CheckerWidget) (w : World Scene) :
  unchanged (@wview Scene) body ->
  map widget_identity (fst (snd (for_widgets body ws w)))
  = map widget_identity ws.
Proof.
  intros Hb. pose proof (for_widgets_each body ws w) as F.
  induction F as [| x x' l l' Hx F IH]; simpl; [reflexivity |].
  rewrite IH. f_equal.
  destruct Hx as [-> | [wd ->]]; [reflexivity |].
  exact (Hb (x, wd)).
Qed.

Lemma for_widgets_fixed (body : M (CheckerWidget * World Scene) unit)
    (ws : list CheckerWidget) (w : World Scene) (i : nat) (x : CheckerWidget) :
  nth_error ws i = Some x ->
  (forall wd, fst (snd (body (x, wd))) = x) ->
  nth_error (fst (snd (for_widgets body ws w))) i = Some x.
Proof.
  intros Hi Hx. pose proof (for_widgets_each body ws w) as F.
  revert i Hi. induction F as [| a a' l l' Ha F IH]; intros i Hi.
  - destruct i; discriminate.
  - destruct i as [| i]; simpl in *.
    + injection Hi as ->. destruct Ha as [-> | [wd ->]]; [reflexivity |].
      rewrite Hx. reflexivity.
    + apply IH, Hi.
Qed.

Lemma checkAll_widgets (app : ModelSanityChecker) (w : World Scene) :
  checkerWidgets (fst (snd (checkAll host app w)))
  = fst (snd (for_widgets (checkAll_body Scene host (rootLE app))
                (checkerWidgets app) w)).
Proof.
  unfold checkAll.
  destruct (for_widgets _ (checkerWidgets app) w) as [r [ws w']]. reflexivity.
Qed.

Lemma fixAll_widgets (app : ModelSanityChecker) (w : World Scene) :
  checkerWidgets (fst (snd (fixAll host app w)))
  = fst (snd (for_widgets (fix_ host) (checkerWidgets app) w)).
Proof.
  unfold fixAll.
  destruct (for_widgets _ (checkerWidgets app) w) as [r [ws w']]. reflexivity.
Qed.

Lemma checkAll_body_disabled (node : string) (x : CheckerWidget)
    (wd : World Scene) :
  isEnabled (checker x) = false ->
  checkAll_body Scene host node (x, wd) = (Ok tt, (x, wd)).
Proof.
  intros H. unfold checkAll_body, bind, widget, gets. simpl. rewrite H.
  reflexivity.
Qed.

(** The items and the icon after the display loop of [doCheck]. *)
Lemma display_loop (warn : bool) (errs : list Error) :
  forall (x : CheckerWidget) (wd : World Scene),
  exists x',
    for_each errs (fun err =>
      addItem Scene err ;;;
      if warn then setStatusIcon Scene "warning" else setStatusIcon Scene "bad")
      (x, wd) = (Ok tt, (x', wd)) /\
    checker x' = checker x /\
    errorList x' = errorList x ++ errs /\
    statusIcon x' = match errs with
                    | [] => statusIcon x
                    | _ => Some (if warn then "warning" else "bad")
                    end.
Proof.
  induction errs as [| e errs IH]; intros x wd; simpl.
  - exists x. rewrite app_nil_r. repeat split.
  - unfold bind at 1. unfold bind at 1. unfold addItem at 1, modify. simpl.
    destruct warn; unfold setStatusIcon at 1, modify; simpl;
      match goal with
      | |- context [for_each errs ?b (?x1, wd)] =>
          destruct (IH x1 wd) as (x' & E & Hc & Hl & Hi)
      end;
      exists x'; rewrite E; (split; [reflexivity |]);
      (split; [exact Hc |]);
      (split; [rewrite Hl; simpl; rewrite <- app_assoc; reflexivity |]);
      rewrite Hi; destruct errs; reflexivity.
Qed.

End WidgetKeeps.

(** X6. After a [doCheck] that returns, the list widget shows exactly the
    findings the checker has cached, and the status icon is ["good"]
    when there is none, otherwise ["warning"] for a warning checker and
    ["bad"] for the others. *)
Theorem doCheck_display :
  forall (Scene : Type) (host : Host Scene) (objs : list string)
         (x : CheckerWidget) (wd : World Scene)
         (x' : CheckerWidget) (wd' : World Scene),
    doCheck host objs (x, wd) = (Ok tt, (x', wd')) ->
    errorList x' = errors (checker x') /\
    statusIcon x'
    = Some (icon_for (isWarning (checker x)) (errors (checker x'))).
Proof.
  intros Scene host objs x wd x' wd' H.
  unfold doCheck in H. unfold bind at 1 in H.
  unfold set_errorList at 1, modify in H. simpl in H.
  unfold bind at 1, widget, gets in H. simpl in H.
  unfold bind at 1, on_checker, zoom in H. simpl in H.
  destruct (checkIt host objs (settings x) (checker x, wd))
    as [[errs | e] [c1 w1]] eqn:C; simpl in H; [| discriminate].
  assert (Ec : errors c1 = errs)
    by exact (returns_cache_checkIt host objs (settings x) _ _ _ C).
  match type of H with
  | _ (?x1, _) = _ =>
      destruct (display_loop (isWarning (checker x)) errs x1 w1)
        as (x2 & E & Hc & Hl & Hi)
  end.
  destruct errs as [| e0 errs]; cbv beta match in H.
  - unfold setStatusIcon, modify in H. injection H as <- <-.
    simpl. rewrite Ec. split; reflexivity.
  - rewrite E in H. injection H as <- <-.
    rewrite Hl, Hi, Hc. simpl. rewrite Ec. split; reflexivity.
Qed.

Lemma doCheck_display_witness :
  exists x' wd',
    doCheck Toy.example_host ["|a"] (triangle_widget, selected_a)
    = (Ok tt, (x', wd')) /\
    errorList x' = errors (checker x') /\
    statusIcon x' = Some "warning".
Proof.
  pose (o := snd (doCheck Toy.example_host ["|a"] (triangle_widget, selected_a))).
  exists (fst o), (snd o).
  assert (H : doCheck Toy.example_host ["|a"] (triangle_widget, selected_a)
              = (Ok tt, (fst o, snd o))) by (vm_compute; reflexivity).
  split; [exact H |].
  destruct (doCheck_display _ _ _ _ _ _ _ H) as [H1 H2].
  split; [exact H1 |]. rewrite H2. vm_compute. reflexivity.
Defined.

(** X7. [check()] without a path on an enabled widget, when nothing is
    selected, only issues the warning: [checkIt] is not entered and the
    widget, with its list and its cached findings, is as before. *)
Theorem check_nothing_selected :
  forall (Scene : Type) (host : Host Scene) (x : CheckerWidget)
         (wd : World Scene) (sc' : Scene),
    isEnabled (checker x) = true ->
    host _ ls_selection (scene wd) = (Ok [], sc') ->
    check host None (x, wd)
    = (fst (host _ (warning "Nothing is selected") sc'),
       (x, {| scene := snd (host _ (warning "Nothing is selected") sc');
              trace := trace wd |})).
Proof.
  intros Scene host x wd sc' En Hs.
  unfold check, bind, widget, gets. simpl. rewrite En. simpl.
  unfold call. simpl. rewrite Hs. simpl.
  destruct (host unit (warning "Nothing is selected") sc'). reflexivity.
Qed.

Lemma check_nothing_selected_witness :
  isEnabled (checker triangle_widget) = true /\
  check Toy.example_host None (triangle_widget, one_unused_layer)
  = (Ok tt, (triangle_widget, one_unused_layer)).
Proof.
  split; [reflexivity |].
  exact (check_nothing_selected Toy.ToyScene Toy.example_host triangle_widget
           one_unused_layer (scene one_unused_layer) eq_refl eq_refl).
Defined.

(** X8. A widget whose checker is disabled comes out of [checkAll] and
    out of [fixAll] exactly as it went in, cached findings and list
    included, whether the batch runs to its end or is cut short by an
    exception. *)
Theorem batch_skips_disabled :
  forall (Scene : Type) (host : Host Scene) (app : ModelSanityChecker)
         (w : World Scene) (i : nat) (x : CheckerWidget),
    nth_error (checkerWidgets app) i = Some x ->
    isEnabled (checker x) = false ->
    nth_error (checkerWidgets (fst (snd (checkAll host app w)))) i = Some x /\
    nth_error (checkerWidgets (fst (snd (fixAll host app w)))) i = Some x.
Proof.
  intros Scene host app w i x Hi Hd. split.
  - rewrite checkAll_widgets. apply for_widgets_fixed; [exact Hi |].
    intros wd. rewrite (checkAll_body_disabled host _ x wd Hd). reflexivity.
  - rewrite fixAll_widgets. apply for_widgets_fixed; [exact Hi |].
    intros wd. rewrite (fix_disabled host x wd Hd). reflexivity.
Qed.

Lemma batch_skips_disabled_witness :
  nth_error (checkerWidgets app0) 5
    = Some (CheckerWidget_init (BaseChecker_init NameChecker) settings0) /\
  nth_error (checkerWidgets
               (fst (snd (checkAll Toy.failing_oracle_host app0 selected_a)))) 5
    = Some (CheckerWidget_init (BaseChecker_init NameChecker) settings0) /\
  nth_error (checkerWidgets
               (fst (snd (fixAll Toy.failing_oracle_host app0 selected_a)))) 5
    = Some (CheckerWidget_init (BaseChecker_init NameChecker) settings0).
Proof.
  assert (H : nth_error (checkerWidgets app0) 5
              = Some (CheckerWidget_init (BaseChecker_init NameChecker) settings0))
    by (vm_compute; reflexivity).
  split; [exact H |].
  exact (batch_skips_disabled Toy.ToyScene Toy.failing_oracle_host app0
           selected_a 5 _ H eq_refl).
Defined.

Lemma batch_keeps_registry_helper {Scene} (host : Host Scene)
    (app : ModelSanityChecker) (w : World Scene) :
  map widget_identity (checkerWidgets (fst (snd (checkAll host app w))))
  = map widget_identity (checkerWidgets app) /\
  map widget_identity (checkerWidgets (fst (snd (fixAll host app w))))
  = map widget_identity (checkerWidgets app).
Proof.
  split.
  - rewrite checkAll_widgets.
    apply for_widgets_identity, wview_checkAll_body.
  - rewrite fixAll_widgets. apply for_widgets_identity, wview_fix.
Qed.

(** X9. [checkAll] and [fixAll], whether they return or raise, keep the
    widgets in place: as many widgets in the same order, each with the
    class of its checker, its [isEnabled] flag, its settings, its
    checkbox and the state of its frame unchanged.  Only cached
    findings, list items and icons move. *)
Theorem batch_keeps_registry :
  forall (Scene : Type) (host : Host Scene) (app : ModelSanityChecker)
         (w : World Scene),
    map widget_identity (checkerWidgets (fst (snd (checkAll host app w))))
    = map widget_identity (checkerWidgets app) /\
    map widget_identity (checkerWidgets (fst (snd (fixAll host app w))))
    = map widget_identity (checkerWidgets app).
Proof.
  intros Scene host app w. apply batch_keeps_registry_helper.
Qed.

(** X10. [fixAll] has no handler either: when the fix of one widget
    raises (in [fixIt] or in the check that follows it), [fixAll] raises
    at that widget; the widgets before it are as their fix left them
    and the widgets after it are untouched. *)
Theorem fixAll_stops_at_failure :
  forall (Scene : Type) (host : Host Scene) (app : ModelSanityChecker)
         (w : World Scene) (pre post : list CheckerWidget)
         (wk : CheckerWidget) pre' w1 e wk' w2,
    checkerWidgets app = pre ++ wk :: post ->
    for_widgets (fix_ host) pre w = (Ok tt, (pre', w1)) ->
    fix_ host (wk, w1) = (Raise e, (wk', w2)) ->
    fixAll host app w
    = (Raise e,
       ({| checkerWidgets := pre' ++ wk' :: post; rootLE := rootLE app |}, w2)).
Proof.
  intros Scene host app w pre post wk pre' w1 e wk' w2 Hws Hpre Hk.
  unfold fixAll. rewrite Hws.
  rewrite (for_widgets_raises _ pre post wk w pre' w1 e wk' w2 Hpre Hk).
  reflexivity.
Qed.

Lemma fixAll_stops_at_failure_witness :
  exists pre' w1 wk' w2,
    checkerWidgets app0
    = widgets_before_VertexPnts ++ VertexPnts_widget :: widgets_after_VertexPnts /\
    for_widgets (fix_ Toy.failing_oracle_host) widgets_before_VertexPnts
      selected_a = (Ok tt, (pre', w1)) /\
    fix_ Toy.failing_oracle_host (VertexPnts_widget, w1)
    = (Raise RuntimeError, (wk', w2)) /\
    fixAll Toy.failing_oracle_host app0 selected_a
    = (Raise RuntimeError,
       ({| checkerWidgets := pre' ++ wk' :: widgets_after_VertexPnts;
           rootLE := rootLE app0 |}, w2)).
Proof.
  pose (o := for_widgets (fix_ Toy.failing_oracle_host)
               widgets_before_VertexPnts selected_a).
  pose (o2 := fix_ Toy.failing_oracle_host (VertexPnts_widget, snd (snd o))).
  exists (fst (snd o)), (snd (snd o)), (fst (snd o2)), (snd (snd o2)).
  assert (H1 : checkerWidgets app0
               = widgets_before_VertexPnts ++ VertexPnts_widget
                   :: widgets_after_VertexPnts)
    by (vm_compute; reflexivity).
  assert (H2 : for_widgets (fix_ Toy.failing_oracle_host)
                 widgets_before_VertexPnts selected_a
               = (Ok tt, (fst (snd o), snd (snd o))))
    by (vm_compute; reflexivity).
  assert (H3 : fix_ Toy.failing_oracle_host (VertexPnts_widget, snd (snd o))
               = (Raise RuntimeError, (fst (snd o2), snd (snd o2))))
    by (vm_compute; reflexivity).
  split; [exact H1 |]. split; [exact H2 |]. split; [exact H3 |].
  exact (fixAll_stops_at_failure Toy.ToyScene Toy.failing_oracle_host app0
           selected_a widgets_before_VertexPnts widgets_after_VertexPnts
           VertexPnts_widget _ _ RuntimeError _ _ H1 H2 H3).
Defined.

Section Synced.

Context {Scene : Type}.

Lemma synced_identity (x x' : CheckerWidget) :
  widget_identity x' = widget_identity x -> synced x -> synced x'.
Proof.
  unfold widget_identity, synced. intros H [S1 S2].
  injection H as H1 H2 H3 H4 H5. rewrite H4, H5, H2. split; assumption.
Qed.

Lemma synced_identities (ws ws' : list CheckerWidget) :
  map widget_identity ws' = map widget_identity ws ->
  Forall synced ws -> Forall synced ws'.
Proof.
  revert ws'. induction ws as [| x ws IH]; intros [| x' ws'] H F;
    simpl in H; try discriminate H; [constructor |].
  assert (Hx : widget_identity x' = widget_identity x) by congruence.
  assert (Hws : map widget_identity ws' = map widget_identity ws) by congruence.
  inversion F; subst. constructor.
  - eapply synced_identity; eassumption.
  - apply IH; assumption.
Qed.

Lemma synced_setEnabled (state : bool) (x : CheckerWidget) (wd : World Scene) :
  synced (fst (snd (setEnabled Scene state (x, wd)))).
Proof. split; reflexivity. Qed.

Lemma synced_checkboxToggle_body (cat : string) (state : Z)
    (x : CheckerWidget) (wd : World Scene) :
  synced x ->
  synced (fst (snd (checkboxToggle_body Scene cat state (x, wd)))).
Proof.
  intros S. unfold checkboxToggle_body, bind, widget, gets. simpl.
  destruct (String.eqb cat (category (checker x))); [| exact S].
  destruct (Z.eqb state 2); apply synced_setEnabled.
Qed.

End Synced.

(** X11. The checkbox and the frame of every widget show the [isEnabled]
    flag of its checker: this holds for a widget as it is built, after
    [toggleEnable] with any state, and it is kept for all widgets by a
    category toggle, by [checkAll] and by [fixAll]. *)
Theorem widgets_stay_synced :
  forall (Scene : Type) (host : Host Scene),
    (forall chk s, synced (CheckerWidget_init chk s)) /\
    (forall state x (wd : World Scene),
       synced (fst (snd (toggleEnable Scene state (x, wd))))) /\
    (forall app (w : World Scene) cat state,
       Forall synced (checkerWidgets app) ->
       Forall synced (fst (snd (checkboxToggle cat state (checkerWidgets app) w))) /\
       Forall synced (checkerWidgets (fst (snd (checkAll host app w)))) /\
       Forall synced (checkerWidgets (fst (snd (fixAll host app w))))).
Proof.
  intros Scene host. split; [| split].
  - intros chk s. split; reflexivity.
  - intros state x wd. unfold toggleEnable.
    destruct (Z.eqb state 2); apply synced_setEnabled.
  - intros app w cat state F. split; [| split].
    + unfold checkboxToggle.
      pose proof (for_widgets_each (checkboxToggle_body Scene cat state)
                    (checkerWidgets app) w) as E.
      induction E as [| x x' l l' Hx E IH]; [constructor |].
      inversion F; subst. constructor; [| apply IH; assumption].
      destruct Hx as [-> | [wd ->]]; [assumption |].
      apply synced_checkboxToggle_body. assumption.
    + eapply synced_identities; [| exact F].
      apply (proj1 (batch_keeps_registry_helper host app w)).
    + eapply synced_identities; [| exact F].
      apply (proj2 (batch_keeps_registry_helper host app w)).
Qed.

Lemma widgets_stay_synced_witness :
  Forall synced (checkerWidgets app0) /\
  Forall synced (fst (snd (checkboxToggle "UV" 0 (checkerWidgets app0) selected_a))) /\
  Forall synced
    (checkerWidgets (fst (snd (checkAll Toy.failing_oracle_host app0 selected_a)))) /\
  Forall synced
    (checkerWidgets (fst (snd (fixAll Toy.failing_oracle_host app0 selected_a)))).
Proof.
  assert (F : Forall synced (checkerWidgets app0)).
  { change (checkerWidgets app0)
      with (map (fun i => CheckerWidget_init i settings0)
                (sort (map BaseChecker_init CHECKERS))).
    apply Forall_forall. intros x Hx.
    apply in_map_iff in Hx. destruct Hx as (chk & <- & _).
    apply (proj1 (widgets_stay_synced Toy.ToyScene Toy.quiet_host)). }
  split; [exact F |].
  exact (proj2 (proj2 (widgets_stay_synced Toy.ToyScene Toy.failing_oracle_host))
           app0 selected_a "UV" 0%Z F).
Defined.

(** ** [fixIt] *)

Section FixIt.

Context {Scene : Type}.
Variable host : Host Scene.

Lemma fixIt_unfold (c : BaseChecker) (w : World Scene) :
  fixIt host (c, w) = fixIt_body host (cls c) (c, fix_entered c w).
Proof. reflexivity. Qed.

(** A loop whose every iteration swallows every exception returns. *)
Lemma for_each_try_all {St Y} (xs : list Y) (body : Y -> M St unit) (s : St) :
  fst (for_each xs (fun x => try_pass is_Exception (body x)) s) = Ok tt.
Proof.
  revert s. induction xs as [| x xs IH]; intros s; simpl; [reflexivity |].
  unfold bind, try_pass at 1.
  destruct (body x s) as [[[] | e] s1]; simpl; apply IH.
Qed.

(** A loop over findings whose owners are all reported missing, in a
    body that asks [objExists] first, does nothing. *)
Lemma for_each_all_missing {Y} (owner : Y -> string) (xs : list Y)
    (rest : Y -> M (BaseChecker * World Scene) unit)
    (c : BaseChecker) (w : World Scene) :
  (forall x, In x xs ->
     host _ (objExists (owner x)) (scene w) = (Ok false, scene w)) ->
  for_each xs (fun x =>
    exists_ <- call Scene host (objExists (owner x)) ;;
    when exists_ (rest x)) (c, w)
  = (Ok tt, (c, w)).
Proof.
  induction xs as [| x xs IH]; intros H; simpl; [reflexivity |].
  unfold bind at 1. unfold bind at 1, call at 1. simpl.
  rewrite (H x (or_introl eq_refl)). simpl.
  destruct w as [sc tr]. simpl in *.
  apply IH. intros y Hy. apply H. right. exact Hy.
Qed.

End FixIt.

(** X12. [fixIt] of any checker, whether it returns or raises, leaves
    the checker as it found it: the cached findings are read, never
    cleared or rewritten, and the class and [isEnabled] stay. *)
Theorem fixIt_leaves_checker :
  forall (Scene : Type) (host : Host Scene) (c : BaseChecker)
         (w : World Scene),
    fst (snd (fixIt host (c, w))) = c.
Proof.
  intros Scene host c w. apply fixIt_keeps_self.
Qed.

(** X13. With no cached finding, [fixIt] of any checker returns without
    raising and sends no command to the host: the scene is untouched. *)
Theorem fixIt_empty_cache :
  forall (Scene : Type) (host : Host Scene) (c : BaseChecker)
         (w : World Scene),
    errors c = [] ->
    fixIt host (c, w) = (Ok tt, (c, fix_entered c w)).
Proof.
  intros Scene host c w H. rewrite fixIt_unfold.
  destruct (cls c); simpl;
    unfold fixIt_VertexPnts, fixIt_ShapeName, fixIt_History,
      fixIt_LockedTransform, fixIt_SmoothPreview, fixIt_Keyframe,
      fixIt_IntermediateObject, fixIt_DisplayLayer, fixIt_UnusedLayer,
      fixIt_Map1, fixIt_SelectionSet, fixIt_ColorSet, bind, self, gets;
    simpl; rewrite ?H; reflexivity.
Qed.

Lemma fixIt_empty_cache_witness :
  errors (BaseChecker_init ShapeNameChecker) = [] /\
  fixIt Toy.maya_host (BaseChecker_init ShapeNameChecker, stale_world)
  = (Ok tt, (BaseChecker_init ShapeNameChecker,
             fix_entered (BaseChecker_init ShapeNameChecker) stale_world)).
Proof.
  split; [reflexivity |].
  exact (fixIt_empty_cache Toy.ToyScene Toy.maya_host
           (BaseChecker_init ShapeNameChecker) stale_world eq_refl).
Defined.

(** X14. [fixIt] of a checker that is not fixable does nothing,
    whatever findings are cached: it returns without raising and the
    scene is untouched.  Every class with [isFixable] false has [pass]
    as its [fixIt]. *)
Theorem fixIt_not_fixable :
  forall (Scene : Type) (host : Host Scene) (c : BaseChecker)
         (w : World Scene),
    isFixable c = false ->
    fixIt host (c, w) = (Ok tt, (c, fix_entered c w)).
Proof.
  intros Scene host c w H. rewrite fixIt_unfold.
  unfold isFixable in H.
  destruct (cls c); try discriminate H; reflexivity.
Qed.

Lemma fixIt_not_fixable_witness :
  isFixable triangle_with_finding = false /\
  fixIt Toy.maya_host (triangle_with_finding, stale_world)
  = (Ok tt, (triangle_with_finding,
             fix_entered triangle_with_finding stale_world)).
Proof.
  split; [reflexivity |].
  exact (fixIt_not_fixable Toy.ToyScene Toy.maya_host triangle_with_finding
           stale_world eq_refl).
Defined.

(** X15. [fixIt] of SelectionSetChecker never raises: every [cmds.delete]
    is wrapped in [except Exception], so each cached finding is tried
    and the call returns. *)
Theorem fixIt_SelectionSet_never_raises :
  forall (Scene : Type) (host : Host Scene) (c : BaseChecker)
         (w : World Scene),
    cls c = SelectionSetChecker ->
    fst (fixIt host (c, w)) = Ok tt.
Proof.
  intros Scene host c w H. rewrite fixIt_unfold, H. simpl.
  unfold fixIt_SelectionSet, bind at 1, self, gets. simpl.
  apply for_each_try_all.
Qed.

Lemma fixIt_SelectionSet_never_raises_witness :
  cls (stale_findings SelectionSetChecker) = SelectionSetChecker /\
  fst (fixIt Toy.maya_host (stale_findings SelectionSetChecker, stale_world))
  = Ok tt.
Proof.
  split; [reflexivity |].
  exact (fixIt_SelectionSet_never_raises Toy.ToyScene Toy.maya_host
           (stale_findings SelectionSetChecker) stale_world eq_refl).
Defined.

(** X16. VertexPntsChecker and IntermediateObjectChecker ask
    [cmds.objExists] before they touch an owner: when every cached owner
    is reported missing, their [fixIt] returns without raising and
    leaves the scene as it is. *)
Theorem fixIt_skips_missing_owners :
  forall (Scene : Type) (host : Host Scene) (c : BaseChecker)
         (w : World Scene),
    cls c = VertexPntsChecker \/ cls c = IntermediateObjectChecker ->
    (forall e, In e (errors c) ->
       host _ (objExists (longName e)) (scene w) = (Ok false, scene w)) ->
    fixIt host (c, w) = (Ok tt, (c, fix_entered c w)).
Proof.
  intros Scene host c w [H | H] Hm; rewrite fixIt_unfold, H; simpl.
  - unfold fixIt_VertexPnts, bind at 1, self, gets. simpl.
    apply (for_each_all_missing host (fun ne => longName (snd ne))
             (enumerate (errors c))
             (fun ne =>
                call Scene host (MSelectionList_add (longName (snd ne))) ;;;
                try_pass is_RuntimeError
                  (call Scene host (polyMoveVertex (longName (snd ne)))))).
    intros [n e] Hin. simpl. apply Hm.
    unfold enumerate in Hin. apply in_combine_r in Hin. exact Hin.
  - unfold fixIt_IntermediateObject, bind at 1, self, gets. simpl.
    apply (for_each_all_missing host longName (errors c)
             (fun e =>
                parents <- call Scene host
                             (listRelatives [longName e] (lr_parent true)) ;;
                for_each (or_empty parents)
                  (fun i => call Scene host (delete (Some [i]) true)) ;;;
                try_pass is_ValueError
                  (call Scene host (delete (Some [longName e]) false)))).
    intros e Hin. apply Hm. exact Hin.
Qed.

Lemma fixIt_skips_missing_owners_witness :
  (forall e, In e (errors (stale_findings VertexPntsChecker)) ->
     Toy.maya_host _ (objExists (longName e)) (scene one_unused_layer)
     = (Ok false, scene one_unused_layer)) /\
  fixIt Toy.maya_host (stale_findings VertexPntsChecker, one_unused_layer)
  = (Ok tt, (stale_findings VertexPntsChecker,
             fix_entered (stale_findings VertexPntsChecker) one_unused_layer)).
Proof.
  assert (H : forall e, In e (errors (stale_findings VertexPntsChecker)) ->
                Toy.maya_host _ (objExists (longName e)) (scene one_unused_layer)
                = (Ok false, scene one_unused_layer)).
  { intros e [<- | [<- | []]]; reflexivity. }
  split; [exact H |].
  exact (fixIt_skips_missing_owners Toy.ToyScene Toy.maya_host
           (stale_findings VertexPntsChecker) one_unused_layer
           (or_introl eq_refl) H).
Defined.

(** ** The order of the registry *)

Section Sort.

Lemma ltb_lt (a b : string) :
  String.ltb a b = true <-> OrderedTypeEx.String_as_OT.lt a b.
Proof.
  rewrite <- OrderedTypeEx.String_as_OT.cmp_lt.
  unfold String.ltb, OrderedTypeEx.String_as_OT.cmp.
  destruct (String.compare a b); split; intros H; congruence.
Qed.

Lemma ltb_irrefl (a : string) : String.ltb a a = false.
Proof.
  destruct (String.ltb a a) eqn:E; [| reflexivity].
  apply ltb_lt in E.
  exfalso. exact (OrderedTypeEx.String_as_OT.lt_not_eq _ _ E eq_refl).
Qed.

Lemma ltb_asym (a b : string) :
  String.ltb a b = true -> String.ltb b a = false.
Proof.
  intros H. destruct (String.ltb b a) eqn:E; [| reflexivity].
  apply ltb_lt in H. apply ltb_lt in E.
  exfalso.
  exact (OrderedTypeEx.String_as_OT.lt_not_eq _ _
           (OrderedTypeEx.String_as_OT.lt_trans _ _ _ H E) eq_refl).
Qed.

Lemma ltb_total (a b : string) :
  String.ltb a b = true \/ a = b \/ String.ltb b a = true.
Proof.
  destruct (String.compare a b) eqn:C.
  - right. left. apply String.compare_eq_iff, C.
  - left. unfold String.ltb. rewrite C. reflexivity.
  - right. right. unfold String.ltb.
    rewrite String.compare_antisym, C. reflexivity.
Qed.

(** "Not after": the order in which [sort] leaves two checkers. *)
Lemma not_after_trans (a b c : BaseChecker) :
  BaseChecker_lt b a = false -> BaseChecker_lt c b = false ->
  BaseChecker_lt c a = false.
Proof.
  unfold BaseChecker_lt. intros Hab Hbc.
  destruct (String.ltb (category c) (category a)) eqn:Hca; [| reflexivity].
  exfalso.
  destruct (ltb_total (category a) (category b)) as [L | [E | L]].
  - apply ltb_lt in Hca. apply ltb_lt in L.
    pose proof (OrderedTypeEx.String_as_OT.lt_trans _ _ _ Hca L) as T.
    apply ltb_lt in T. congruence.
  - rewrite E in Hca. congruence.
  - congruence.
Qed.

Lemma insert_sorted_perm (x : BaseChecker) (l : list BaseChecker) :
  Permutation (insert_sorted x l) (x :: l).
Proof.
  induction l as [| y l IH]; simpl; [reflexivity |].
  destruct (BaseChecker_lt y x); [| reflexivity].
  rewrite IH. apply perm_swap.
Qed.

Lemma insert_sorted_hd (x y : BaseChecker) (l : list BaseChecker) :
  BaseChecker_lt x y = false ->
  HdRel (fun a b => BaseChecker_lt b a = false) y l ->
  HdRel (fun a b => BaseChecker_lt b a = false) y (insert_sorted x l).
Proof.
  intros Hxy H. destruct l as [| z l]; simpl.
  - constructor. exact Hxy.
  - destruct (BaseChecker_lt z x); constructor.
    + inversion H; assumption.
    + exact Hxy.
Qed.

Lemma insert_sorted_sorted (x : BaseChecker) (l : list BaseChecker) :
  Sorted (fun a b => BaseChecker_lt b a = false) l ->
  Sorted (fun a b => BaseChecker_lt b a = false) (insert_sorted x l).
Proof.
  induction l as [| y l IH]; simpl; intros S.
  - repeat constructor.
  - inversion S as [| ? ? Sl Hd]; subst.
    destruct (BaseChecker_lt y x) eqn:E.
    + constructor; [apply IH, Sl |].
      apply insert_sorted_hd; [| exact Hd].
      unfold BaseChecker_lt in *. apply ltb_asym, E.
    + constructor; [exact S |]. constructor. exact E.
Qed.

Lemma insert_sorted_filter (cat : string) (x : BaseChecker)
    (l : list BaseChecker) :
  filter (fun c => String.eqb (category c) cat) (insert_sorted x l)
  = filter (fun c => String.eqb (category c) cat) (x :: l).
Proof.
  induction l as [| y l IH]; simpl; [reflexivity |].
  destruct (BaseChecker_lt y x) eqn:E; [| reflexivity].
  simpl. rewrite IH. simpl.
  destruct (String.eqb (category y) cat) eqn:Ey; [| reflexivity].
  destruct (String.eqb (category x) cat) eqn:Ex; [| reflexivity].
  apply String.eqb_eq in Ey. apply String.eqb_eq in Ex.
  unfold BaseChecker_lt in E. rewrite Ey, Ex, ltb_irrefl in E. discriminate.
Qed.

End Sort.

(** X17. The sort of the checker objects by [__lt__] rearranges them
    without losing or duplicating any, leaves no checker before one of a
    smaller category, and keeps the checkers of one category in the
    order in which they were registered. *)
Theorem sort_by_category_stable :
  forall l : list BaseChecker,
    Permutation (sort l) l /\
    StronglySorted (fun a b => BaseChecker_lt b a = false) (sort l) /\
    forall cat,
      filter (fun c => String.eqb (category c) cat) (sort l)
      = filter (fun c => String.eqb (category c) cat) l.
Proof.
  intros l. split; [| split].
  - induction l as [| x l IH]; simpl; [constructor |].
    rewrite insert_sorted_perm. constructor. exact IH.
  - apply Sorted_StronglySorted.
    + intros a b c Hab Hbc. exact (not_after_trans a b c Hab Hbc).
    + induction l as [| x l IH]; simpl; [constructor |].
      apply insert_sorted_sorted, IH.
  - intros cat. induction l as [| x l IH]; simpl; [reflexivity |].
    rewrite insert_sorted_filter. simpl. rewrite IH. reflexivity.
Qed.

(** ** [Error] *)

Section ShortName.

Variable sep : ascii.




End ShortName.


(** ** Single checkers *)

Section Singles.

Context {Scene : Type}.
Variable host : Host Scene.

Lemma remove_first_absent (x : string) (l : list string) :
  ~ In x l -> remove_first x l = Raise ValueError.
Proof.
  induction l as [| y l IH]; simpl; intros H; [reflexivity |].
  destruct (String.eqb y x) eqn:E.
  - apply String.eqb_eq in E. exfalso. apply H. left. exact E.
  - rewrite IH; [reflexivity |]. intros I. apply H. right. exact I.
Qed.

(** The loop of UnusedLayerChecker over layers whose membership query
    answers [members] and leaves the scene alone. *)
Lemma unused_layer_loop (members : string -> option (list string))
    (ls : list string) :
  forall (c : BaseChecker) (w : World Scene),
    (forall l, In l ls ->
       host _ (editDisplayLayerMembers l) (scene w) = (Ok (members l), scene w)) ->
    for_each ls (fun layer =>
      contents <- call Scene host (editDisplayLayerMembers layer) ;;
      match contents with
      | None => append_error Scene (Error_init layer (Some [layer]))
      | Some _ => ret tt
      end) (c, w)
    = (Ok tt,
       (with_errors c
          (errors c ++
           map (fun l => Error_init l (Some [l]))
               (filter (fun l => match members l with
                                 | None => true
                                 | Some _ => false
                                 end) ls)),
        w)).
Proof.
  induction ls as [| l ls IH]; intros c w H; simpl.
  - unfold ret, with_errors. rewrite app_nil_r. destruct c; reflexivity.
  - unfold bind at 1. unfold bind at 1, call at 1. simpl.
    rewrite (H l (or_introl eq_refl)). simpl.
    destruct w as [sc tr]. simpl in *.
    destruct (members l) as [ms |]; simpl.
    + unfold ret at 1. apply IH. intros l' Hl'. apply H. right. exact Hl'.
    + unfold append_error at 1, modify. simpl.
      rewrite IH by (intros l' Hl'; apply H; right; exact Hl').
      unfold with_errors. simpl. rewrite <- app_assoc. reflexivity.
Qed.

Lemma name_loop {St} (objs : list string) (s : St) :
  for_each objs (fun _ : string => try_pass is_RuntimeError (ret tt)) s
  = (Ok tt, s).
Proof.
  induction objs as [| o objs IH]; simpl; [reflexivity |].
  unfold bind, try_pass, ret. simpl. exact IH.
Qed.

End Singles.

(** X19. UnusedLayerChecker removes ["defaultLayer"] from the list of
    display layers before it looks at them: when the host's list does not
    contain it, [checkIt] raises [ValueError] and the cached list is left
    empty. *)
Theorem UnusedLayer_needs_defaultLayer :
  forall (Scene : Type) (host : Host Scene) (objs : list string)
         (settings : option Settings) (c : BaseChecker) (w : World Scene)
         (layers : list string) (sc' : Scene),
    cls c = UnusedLayerChecker ->
    host _ (ls_type "displayLayer") (scene w) = (Ok layers, sc') ->
    ~ In "defaultLayer" layers ->
    checkIt host objs settings (c, w)
    = (Raise ValueError,
       (with_errors c [],
        {| scene := sc'; trace := trace (entered c objs w) |})).
Proof.
  intros Scene host objs settings c w layers sc' Ek H N.
  rewrite checkIt_unfold, Ek. simpl.
  unfold checkIt_UnusedLayer, bind, set_errors, modify, call, lift_result.
  simpl. rewrite H, (remove_first_absent _ _ N). reflexivity.
Qed.

Lemma UnusedLayer_needs_defaultLayer_witness :
  ~ In "defaultLayer" ["layer1"] /\
  checkIt Toy.quiet_host [] None
    (BaseChecker_init UnusedLayerChecker, no_default_layer)
  = (Raise ValueError,
     (with_errors (BaseChecker_init UnusedLayerChecker) [],
      {| scene := scene no_default_layer;
         trace := trace (entered (BaseChecker_init UnusedLayerChecker) []
                           no_default_layer) |})).
Proof.
  assert (N : ~ In "defaultLayer" ["layer1"])
    by (intros [E | []]; discriminate E).
  split; [exact N |].
  exact (UnusedLayer_needs_defaultLayer Toy.ToyScene Toy.quiet_host [] None
           (BaseChecker_init UnusedLayerChecker) no_default_layer ["layer1"]
           (scene no_default_layer) eq_refl eq_refl N).
Defined.

(** X20. UnusedLayerChecker reports the display layers without members:
    with the first ["defaultLayer"] removed from the host's list, and a
    membership query that leaves the scene alone, the findings are the
    remaining layers for which the query answers [None], in list order,
    each with the layer as owner and as its only component.  The objects
    it is given play no part. *)
Theorem UnusedLayer_reports :
  forall (Scene : Type) (host : Host Scene) (objs : list string)
         (settings : option Settings) (c : BaseChecker) (w : World Scene)
         (layers rest : list string) (sc' : Scene)
         (members : string -> option (list string)),
    cls c = UnusedLayerChecker ->
    host _ (ls_type "displayLayer") (scene w) = (Ok layers, sc') ->
    remove_first "defaultLayer" layers = Ok rest ->
    (forall l, In l rest ->
       host _ (editDisplayLayerMembers l) sc' = (Ok (members l), sc')) ->
    fst (checkIt host objs settings (c, w))
    = Ok (map (fun l => Error_init l (Some [l]))
              (filter (fun l => match members l with
                                | None => true
                                | Some _ => false
                                end) rest)).
Proof.
  intros Scene host objs settings c w layers rest sc' members Ek H R Hm.
  rewrite checkIt_unfold, Ek. simpl.
  unfold checkIt_UnusedLayer. unfold bind at 1, set_errors, modify. simpl.
  unfold bind at 1, call at 1. simpl. rewrite H.
  unfold bind at 1, lift_result. rewrite R.
  unfold bind at 1.
  rewrite (unused_layer_loop host members rest) by exact Hm.
  reflexivity.
Qed.

Lemma UnusedLayer_reports_witness :
  remove_first "defaultLayer" ["defaultLayer"; "layer1"] = Ok ["layer1"] /\
  fst (checkIt Toy.quiet_host ["|a"] None
         (BaseChecker_init UnusedLayerChecker, one_unused_layer))
  = Ok [Error_init "layer1" (Some ["layer1"])].
Proof.
  split; [reflexivity |].
  apply (UnusedLayer_reports Toy.ToyScene Toy.quiet_host ["|a"] None
           (BaseChecker_init UnusedLayerChecker) one_unused_layer
           ["defaultLayer"; "layer1"] ["layer1"] (scene one_unused_layer)
           (fun _ => None)).
  - reflexivity.
  - reflexivity.
  - reflexivity.
  - intros l _. reflexivity.
Defined.

(** X21. The Name checker is a placeholder: for any objects, settings
    and scene its [checkIt] returns no finding, caches the empty list and
    sends no command to the host. *)
Theorem Name_reports_nothing :
  forall (Scene : Type) (host : Host Scene) (objs : list string)
         (settings : option Settings) (c : BaseChecker) (w : World Scene),
    cls c = NameChecker ->
    checkIt host objs settings (c, w)
    = (Ok [], (with_errors c [], entered c objs w)).
Proof.
  intros Scene host objs settings c w Ek.
  rewrite checkIt_unfold, Ek. simpl.
  unfold checkIt_Name, bind at 1, set_errors, modify. simpl.
  unfold bind at 1. rewrite name_loop. reflexivity.
Qed.

Lemma Name_reports_nothing_witness :
  cls (stale_findings NameChecker) = NameChecker /\
  checkIt Toy.maya_host ["|a"; "|b"] None (stale_findings NameChecker, selected_b)
  = (Ok [], (with_errors (stale_findings NameChecker) [],
             entered (stale_findings NameChecker) ["|a"; "|b"] selected_b)).
Proof.
  split; [reflexivity |].
  exact (Name_reports_nothing Toy.ToyScene Toy.maya_host ["|a"; "|b"] None
           (stale_findings NameChecker) selected_b eq_refl).
Defined.

(** X22. NonmanifoldVertexChecker and IntermediateObjectChecker iterate
    the answer of [cmds.listRelatives] as it comes: when no mesh is found
    under the objects and the answer is [None], [checkIt] raises
    [TypeError] and the cached list is left empty. *)
Theorem unguarded_traversal_raises :
  forall (Scene : Type) (host : Host Scene) (objs : list string)
         (settings : option Settings) (c : BaseChecker) (w : World Scene)
         (sc' : Scene),
    cls c = NonmanifoldVertexChecker \/ cls c = IntermediateObjectChecker ->
    host _ (listRelatives objs (lr_ad "mesh")) (scene w) = (Ok None, sc') ->
    checkIt host objs settings (c, w)
    = (Raise TypeError,
       (with_errors c [],
        {| scene := sc'; trace := trace (entered c objs w) |})).
Proof.
  intros Scene host objs settings c w sc' [Ek | Ek] H;
    rewrite checkIt_unfold, Ek; simpl;
    unfold checkIt_NonmanifoldVertex, checkIt_IntermediateObject,
      bind, set_errors, modify, call; simpl; rewrite H; reflexivity.
Qed.

Lemma unguarded_traversal_raises_witness :
  Toy.quiet_host _ (listRelatives ["|a"] (lr_ad "mesh")) (scene selected_a)
  = (Ok None, scene selected_a) /\
  checkIt Toy.quiet_host ["|a"] None
    (BaseChecker_init IntermediateObjectChecker, selected_a)
  = (Raise TypeError,
     (with_errors (BaseChecker_init IntermediateObjectChecker) [],
      {| scene := scene selected_a;
         trace := trace (entered (BaseChecker_init IntermediateObjectChecker)
                           ["|a"] selected_a) |})).
Proof.
  split; [reflexivity |].
  exact (unguarded_traversal_raises Toy.ToyScene Toy.quiet_host ["|a"] None
           (BaseChecker_init IntermediateObjectChecker) selected_a
           (scene selected_a) (or_intror eq_refl) eq_refl).
Defined.

(** X23. The twelve checkers that walk [cmds.listRelatives(...) or []]
    report nothing and do not raise when the traversal finds no node
    under the objects ([None] or an empty list), whatever the objects
    are. *)
Theorem nothing_found_no_findings :
  forall (Scene : Type) (host : Host Scene) (k : CheckerClass)
         (objs : list string) (settings : option Settings)
         (c : BaseChecker) (w : World Scene),
    guarded_traversal k = true ->
    cls c = k ->
    (forall ty, exists r sc',
       host _ (listRelatives objs (lr_ad ty)) (scene w) = (Ok r, sc') /\
       or_empty r = []) ->
    exists w',
      checkIt host objs settings (c, w) = (Ok [], (with_errors c [], w')).
Proof.
  intros Scene host k objs settings c w G Ek Q.
  rewrite checkIt_unfold, Ek.
  destruct k; try discriminate G; simpl;
    unfold checkIt_ShapeName, checkIt_History, checkIt_Transform,
      checkIt_LockedTransform, checkIt_SmoothPreview, checkIt_Keyframe,
      checkIt_DisplayLayer, checkIt_Map1, checkIt_NegativeUv,
      checkIt_UvOverlap, checkIt_SelectionSet, checkIt_ColorSet,
      bind, set_errors, return_errors, modify, gets, call;
    simpl;
    match goal with
    | |- context [host _ (listRelatives objs (lr_ad ?ty)) ?s] =>
        destruct (Q ty) as (r & sc' & E & R); rewrite E; simpl; rewrite R
    end;
    simpl; eexists; reflexivity.
Qed.

Lemma nothing_found_no_findings_witness :
  guarded_traversal ColorSetChecker = true /\
  exists w',
    checkIt Toy.quiet_host ["|a"] None
      (stale_findings ColorSetChecker, selected_a)
    = (Ok [], (with_errors (stale_findings ColorSetChecker) [], w')).
Proof.
  split; [reflexivity |].
  apply (nothing_found_no_findings Toy.ToyScene Toy.quiet_host ColorSetChecker
           ["|a"] None (stale_findings ColorSetChecker) selected_a).
  - reflexivity.
  - reflexivity.
  - intros ty. exists None, (scene selected_a). split; reflexivity.
Defined.

(** ** Further properties of the widgets *)

Section MoreWidgets.

Context {Scene : Type}.
Variable host : Host Scene.

Lemma fixIt_pass_run (c : BaseChecker) (w : World Scene) :
  isFixable c = false ->
  fixIt host (c, w) = (Ok tt, (c, fix_entered c w)).
Proof.
  intros H. rewrite fixIt_unfold. unfold isFixable in H.
  destruct (cls c); try discriminate H; reflexivity.
Qed.

Lemma checkboxToggle_body_keeps (cat : string) (state : Z)
    (x : CheckerWidget) (wd : World Scene) :
  exists x',
    checkboxToggle_body Scene cat state (x, wd) = (Ok tt, (x', wd)) /\
    cls (checker x') = cls (checker x) /\
    errors (checker x') = errors (checker x) /\
    errorList x' = errorList x /\
    statusIcon x' = statusIcon x /\
    settings x' = settings x.
Proof.
  unfold checkboxToggle_body, bind, widget, gets. simpl.
  destruct (String.eqb cat (category (checker x)));
    [destruct (Z.eqb state 2) |];
    eexists; (split; [reflexivity |]); repeat split.
Qed.

(** The findings appended by a loop that keeps the items passing a
    test. *)
Lemma for_each_when_append {Y} (p : Y -> bool) (f : Y -> Error) (l : list Y)
    (c : BaseChecker) (w : World Scene) :
  for_each l (fun x => when (p x) (append_error Scene (f x))) (c, w)
  = (Ok tt, (with_errors c (errors c ++ map f (filter p l)), w)).
Proof.
  revert c. induction l as [| x l IH]; intros c; simpl.
  - unfold ret, with_errors. rewrite app_nil_r. destruct c; reflexivity.
  - unfold bind. destruct (p x); simpl.
    + unfold append_error at 1, modify. simpl. rewrite IH.
      unfold with_errors. simpl. rewrite <- app_assoc. reflexivity.
    + apply IH.
Qed.

Lemma distinct_In (x : string) (l : list string) :
  In x (distinct l) -> In x l.
Proof.
  induction l as [| y l IH]; simpl; [tauto |].
  intros [-> | H]; [left; reflexivity |].
  apply filter_In in H. right. apply IH. tauto.
Qed.

Lemma distinct_NoDup (l : list string) : NoDup (distinct l).
Proof.
  induction l as [| x l IH]; simpl; constructor.
  - intros H. apply filter_In in H. destruct H as [_ H].
    rewrite String.eqb_refl in H. discriminate.
  - apply NoDup_filter, IH.
Qed.

End MoreWidgets.

(** X24. A category toggle does not raise and touches neither the scene
    nor, in any widget of any category, the class of the checker, its
    cached findings, the list items, the status icon or the settings:
    disabling a category loses no finding. *)
Theorem category_toggle_keeps_findings :
  forall (Scene : Type) (cat : string) (state : Z)
         (ws : list CheckerWidget) (wd : World Scene),
    exists ws',
      checkboxToggle cat state ws wd = (Ok tt, (ws', wd)) /\
      map (fun x => (cls (checker x), errors (checker x), errorList x,
                     statusIcon x, settings x)) ws'
      = map (fun x => (cls (checker x), errors (checker x), errorList x,
                       statusIcon x, settings x)) ws.
Proof.
  intros Scene cat state ws wd. unfold checkboxToggle.
  induction ws as [| x ws IH]; simpl.
  - exists []. split; reflexivity.
  - destruct (checkboxToggle_body_keeps cat state x wd)
      as (x' & E & H1 & H2 & H3 & H4 & H5).
    rewrite E. destruct IH as (ws' & E' & Hm). rewrite E'.
    exists (x' :: ws'). split; [reflexivity |].
    simpl. rewrite Hm, H1, H2, H3, H4, H5. reflexivity.
Qed.

(** X25. [fix] does not look at [isFixable]: on an enabled checker that
    is not fixable ([fixAll] calls [fix] on every widget), [fixIt] does
    nothing and [fix] amounts to a [check()] of the current selection. *)
Theorem fix_not_fixable_is_check :
  forall (Scene : Type) (host : Host Scene) (x : CheckerWidget)
         (wd : World Scene),
    isEnabled (checker x) = true ->
    isFixable (checker x) = false ->
    fix_ host (x, wd) = check host None (x, fix_entered (checker x) wd).
Proof.
  intros Scene host x wd En Nf.
  unfold fix_, bind at 1, widget, gets. simpl. rewrite En. simpl.
  unfold bind at 1, on_checker, zoom. simpl.
  rewrite (fixIt_pass_run host (checker x) wd Nf). simpl.
  rewrite set_checker_same. reflexivity.
Qed.

Lemma fix_not_fixable_is_check_witness :
  isEnabled (checker triangle_widget) = true /\
  isFixable (checker triangle_widget) = false /\
  fix_ Toy.echo_host (triangle_widget, selected_b)
  = check Toy.echo_host None
      (triangle_widget, fix_entered (checker triangle_widget) selected_b).
Proof.
  split; [reflexivity |]. split; [reflexivity |].
  exact (fix_not_fixable_is_check Toy.ToyScene Toy.echo_host triangle_widget
           selected_b eq_refl eq_refl).
Defined.

Section SelectionSets.

Context {Scene : Type}.
Variable host : Host Scene.

Lemma fst_call {T} (q : cmd T) :
  unchanged (fun st : BaseChecker * World Scene => fst st) (call Scene host q).
Proof.
  intros [c w]. unfold call. simpl. destruct (host T q (scene w)). reflexivity.
Qed.

Lemma fst_getSets (path typ : string) :
  unchanged (fun st : BaseChecker * World Scene => fst st)
            (getSets Scene host path typ).
Proof.
  unfold getSets.
  repeat first
    [ match goal with
      | |- unchanged _ (if ?b then _ else _) => destruct b
      | |- forall _, _ => intro
      end
    | unchanged_step | apply fst_call ].
Qed.

(** Collecting the object sets sends queries only: [self] is as
    before. *)
Lemma fst_collect (objs : list string) :
  unchanged (fun st : BaseChecker * World Scene => fst st)
    (concat_m (fun obj =>
       shapes <- call Scene host (listRelatives [obj] lr_shapes) ;;
       of_shapes <- concat_m (fun shape => getSets Scene host shape "shape")
                      (or_empty shapes) ;;
       of_obj <- getSets Scene host obj "transform" ;;
       ret (of_shapes ++ of_obj)) objs).
Proof.
  repeat first
    [ match goal with
      | |- forall _, _ => intro
      end
    | apply fst_getSets | unchanged_step | apply fst_call ].
Qed.

Lemma SelectionSet_run (objs : list string) (c : BaseChecker)
    (w : World Scene) (fs : list Error) (st' : BaseChecker * World Scene) :
  checkIt_SelectionSet Scene host objs (c, w) = (Ok fs, st') ->
  exists sets,
    fs = map (fun s => Error_init s None)
             (filter (fun s => negb (match_modelPanelSet s)) (distinct sets)).
Proof.
  unfold checkIt_SelectionSet. intros H.
  unfold bind at 1, set_errors, modify in H. cbn [fst snd] in H.
  unfold bind at 1, call at 1 in H. cbn [fst snd scene trace] in H.
  destruct (host _ (listRelatives objs (lr_ad "transform")) (scene w))
    as [[r | e] sc]; [| discriminate].
  unfold bind at 1 in H.
  match type of H with
  | match concat_m ?f ?xs ?s0 with _ => _ end = _ =>
      pose proof (fst_collect xs s0) as K;
      destruct (concat_m f xs s0) as [[sets | e] [c2 w2]]; [| discriminate]
  end.
  cbn [fst snd] in K. subst c2.
  cbv zeta in H. unfold bind at 1 in H.
  rewrite (for_each_when_append
             (fun objSet => negb (match_modelPanelSet objSet))
             (fun objSet => Error_init objSet None)) in H.
  unfold return_errors, gets in H. cbn [fst snd errors with_errors] in H.
  injection H as <- _. exists sets. reflexivity.
Qed.

End SelectionSets.

(** X26. SelectionSetChecker passes the sets it has collected through
    [list(set(...))]: whenever its [checkIt] returns, no object set is
    the owner of two findings, however many objects and shapes belong to
    the same set. *)
Theorem SelectionSet_owners_distinct :
  forall (Scene : Type) (host : Host Scene) (objs : list string)
         (settings : option Settings) (c : BaseChecker) (w : World Scene)
         (fs : list Error) (c' : BaseChecker) (w' : World Scene),
    cls c = SelectionSetChecker ->
    checkIt host objs settings (c, w) = (Ok fs, (c', w')) ->
    NoDup (map longName fs).
Proof.
  intros Scene host objs settings c w fs c' w' Ek H.
  rewrite checkIt_unfold, Ek in H. cbn [checkIt_body] in H.
  destruct (SelectionSet_run host objs c _ fs _ H) as [sets ->].
  rewrite map_map. cbn [longName Error_init]. rewrite map_id.
  apply NoDup_filter, distinct_NoDup.
Qed.

Lemma SelectionSet_owners_distinct_witness :
  cls (BaseChecker_init SelectionSetChecker) = SelectionSetChecker /\
  checkIt sets_host ["|a"] None (BaseChecker_init SelectionSetChecker, selected_a)
  = (Ok [Error_init "set1" None],
     (with_errors (BaseChecker_init SelectionSetChecker) [Error_init "set1" None],
      entered (BaseChecker_init SelectionSetChecker) ["|a"] selected_a)) /\
  NoDup (map longName [Error_init "set1" None]).
Proof.
  split; [reflexivity |].
  assert (H : checkIt sets_host ["|a"] None
                (BaseChecker_init SelectionSetChecker, selected_a)
              = (Ok [Error_init "set1" None],
                 (with_errors (BaseChecker_init SelectionSetChecker)
                    [Error_init "set1" None],
                  entered (BaseChecker_init SelectionSetChecker) ["|a"]
                    selected_a)))
    by (vm_compute; reflexivity).
  split; [exact H |].
  exact (SelectionSet_owners_distinct Toy.ToyScene sets_host ["|a"] None
           (BaseChecker_init SelectionSetChecker) selected_a _ _ _ eq_refl H).
Defined.
